(** * salt.modules.freebsd_status: a shallow embedding and its properties

    The module gathers host statistics by running commands, reading sysctl
    values and pseudo-files, and parsing the text into dictionaries.  The
    embedding below follows [salt/modules/freebsd_status.py] function by
    function.

    - The module is Python 2 code ([range(len(cpus)/5)] relies on integer
      [/]), so the builtins are modelled with their Python 2.7 behaviour on
      byte strings.
    - Exceptions are explicit: a computation has type [result A], either
      [Ok a] or [Raise e].
    - Dictionaries with string keys are [gmap string value], lists are
      [list value].
    - Everything the module obtains from the host (command output, sysctl
      values, pseudo-files, [statvfs]) is a field of a [World] record. *)

From Stdlib Require Import ZArith String Ascii List Bool Lia.
From stdpp Require Import gmap strings list pretty.

#[local] Set Warnings "-register-all".
#[local] Set Warnings "-clear-no-such-hyp".
#[local] Open Scope string_scope.
#[local] Open Scope Z_scope.

(** ** Exceptions and the error monad *)

Inductive exn : Type :=
| NameError (name : string)
| IndexError
| ValueError
| TypeError
| StructError
| ReError
| OSError.

Inductive result (A : Type) : Type :=
| Ok (a : A)
| Raise (e : exn).
Arguments Ok {A} a.
Arguments Raise {A} e.

#[global] Instance result_ret : MRet result := fun _ a => Ok a.
#[global] Instance result_bind : MBind result := fun _ _ f m =>
  match m with
  | Ok a => f a
  | Raise e => Raise e
  end.

#[global] Instance result_fmap : FMap result := fun _ _ f m =>
  match m with
  | Ok a => Ok (f a)
  | Raise e => Raise e
  end.

Definition is_ok {A} (r : result A) : Prop := exists a, r = Ok a.

(** [for x in xs: body], threading the loop state and stopping at the first
    exception. *)
Fixpoint for_in {S A : Type} (body : S -> A -> result S) (xs : list A) (s : S)
  : result S :=
  match xs with
  | [] => Ok s
  | x :: xs' => s' ← body s x; for_in body xs' s'
  end.

(** ** Python values *)

(** A float is kept as the decimal it was read from: [FDec neg m e] stands
    for the double nearest to (-1)^neg * m * 10^e.  Rounding is not modelled. *)
Inductive pyfloat : Type :=
| FDec (neg : bool) (mant : Z) (exp : Z)
| FInf (neg : bool)
| FNan.

Inductive value : Type :=
| VInt (z : Z)
| VFloat (f : pyfloat)
| VStr (s : string)
| VList (l : list value)
| VDict (d : gmap string value).

(** ** String builtins (Python 2 [str]) *)

Module Str.

Definition chr (n : nat) : ascii := ascii_of_nat n.

(** [str.isspace] characters in the C locale: space, \t, \n, \v, \f, \r. *)
Definition is_space (c : ascii) : bool :=
  let n := nat_of_ascii c in
  (Nat.eqb n 32 || (Nat.leb 9 n && Nat.leb n 13))%bool.

Definition is_digit (c : ascii) : bool :=
  let n := nat_of_ascii c in (Nat.leb 48 n && Nat.leb n 57)%bool.

Definition digit_val (c : ascii) : Z := Z.of_nat (nat_of_ascii c) - 48.

Definition is_empty (s : string) : bool :=
  match s with EmptyString => true | _ => false end.

Definition snoc (s : string) (c : ascii) : string := s +:+ String c "".

Definition flush (tok : string) : list string :=
  if is_empty tok then [] else [tok].

(** [s.split()]: maximal runs of non-whitespace characters. *)
Fixpoint split_go (tok : string) (s : string) : list string :=
  match s with
  | EmptyString => flush tok
  | String c s' =>
      if is_space c then flush tok ++ split_go "" s'
      else split_go (snoc tok c) s'
  end.
Definition split (s : string) : list string := split_go "" s.

(** [s.split(sep)] for a one-character separator: never empty. *)
Fixpoint split_on_go (sep : ascii) (tok : string) (s : string) : list string :=
  match s with
  | EmptyString => [tok]
  | String c s' =>
      if Ascii.eqb c sep then tok :: split_on_go sep "" s'
      else split_on_go sep (snoc tok c) s'
  end.
Definition split_on (sep : ascii) (s : string) : list string :=
  split_on_go sep "" s.

(** [s.splitlines()]: breaks at \n, \r and \r\n, no final empty line. *)
Fixpoint splitlines_go (tok : string) (s : string) : list string :=
  match s with
  | EmptyString => flush tok
  | String c s' =>
      if Ascii.eqb c (chr 10) then tok :: splitlines_go "" s'
      else if Ascii.eqb c (chr 13) then
        match s' with
        | String c' s'' =>
            if Ascii.eqb c' (chr 10) then tok :: splitlines_go "" s''
            else tok :: splitlines_go "" s'
        | EmptyString => [tok]
        end
      else splitlines_go (snoc tok c) s'
  end.
Definition splitlines (s : string) : list string := splitlines_go "" s.

Fixpoint lstrip (s : string) : string :=
  match s with
  | String c s' => if is_space c then lstrip s' else s
  | EmptyString => ""
  end.

Fixpoint rstrip (s : string) : string :=
  match s with
  | EmptyString => ""
  | String c s' =>
      match rstrip s' with
      | EmptyString => if is_space c then "" else String c ""
      | r => String c r
      end
  end.

Definition strip (s : string) : string := rstrip (lstrip s).

(** [sep.join(l)] *)
Fixpoint join (sep : string) (l : list string) : string :=
  match l with
  | [] => ""
  | [x] => x
  | x :: l' => x +:+ sep +:+ join sep l'
  end.

Fixpoint startswith (p s : string) : bool :=
  match p, s with
  | EmptyString, _ => true
  | String a p', String b s' => Ascii.eqb a b && startswith p' s'
  | String _ _, EmptyString => false
  end.

(** [c in s] for a one-character [c] *)
Fixpoint contains (c : ascii) (s : string) : bool :=
  match s with
  | EmptyString => false
  | String b s' => Ascii.eqb b c || contains c s'
  end.

(** [s.replace(a, b)] for one-character [a] and [b] *)
Fixpoint replace_char (a b : ascii) (s : string) : string :=
  match s with
  | EmptyString => ""
  | String c s' => String (if Ascii.eqb c a then b else c) (replace_char a b s')
  end.

(** [s.replace(a, '')] for a one-character [a] *)
Fixpoint remove_char (a : ascii) (s : string) : string :=
  match s with
  | EmptyString => ""
  | String c s' =>
      if Ascii.eqb c a then remove_char a s' else String c (remove_char a s')
  end.

(** [s[n:]] and [s[:n]] for a non-negative constant [n] *)
Fixpoint drop (n : nat) (s : string) : string :=
  match n, s with
  | O, _ => s
  | S n', String _ s' => drop n' s'
  | S _, EmptyString => ""
  end.

Fixpoint take (n : nat) (s : string) : string :=
  match n, s with
  | O, _ => ""
  | S n', String c s' => String c (take n' s')
  | S _, EmptyString => ""
  end.

Definition lower (c : ascii) : ascii :=
  let n := nat_of_ascii c in
  if (Nat.leb 65 n && Nat.leb n 90)%bool then ascii_of_nat (n + 32) else c.

Fixpoint lower_str (s : string) : string :=
  match s with
  | EmptyString => ""
  | String c s' => String (lower c) (lower_str s')
  end.

Fixpoint all_digits (s : string) : bool :=
  match s with
  | EmptyString => true
  | String c s' => is_digit c && all_digits s'
  end.

(** the number written by a string of decimal digits, most significant
    first, continuing from [acc] *)
Fixpoint digits_val (acc : Z) (s : string) : Z :=
  match s with
  | EmptyString => acc
  | String c s' => digits_val (10 * acc + digit_val c) s'
  end.

(** leading decimal digits and what follows them *)
Fixpoint span_digits (s : string) : string * string :=
  match s with
  | String c s' =>
      if is_digit c then let '(d, r) := span_digits s' in (String c d, r)
      else ("", s)
  | EmptyString => ("", "")
  end.

(** an optional [+] or [-]: whether it was [-], and the rest *)
Definition split_sign (s : string) : bool * string :=
  match s with
  | String c s' =>
      if Ascii.eqb c "-" then (true, s')
      else if Ascii.eqb c "+" then (false, s')
      else (false, s)
  | EmptyString => (false, "")
  end.

End Str.

(** ** Sequence builtins *)

(** [l[i]] with Python's negative indices; [IndexError] out of range. *)
Definition py_get {A} (l : list A) (i : Z) : result A :=
  let n := Z.of_nat (List.length l) in
  let j := if i <? 0 then i + n else i in
  if (j <? 0) || (n <=? j) then Raise IndexError
  else match l !! Z.to_nat j with
       | Some x => Ok x
       | None => Raise IndexError
       end.

(** [l[i] = v] *)
Definition py_set {A} (l : list A) (i : Z) (v : A) : result (list A) :=
  let n := Z.of_nat (List.length l) in
  let j := if i <? 0 then i + n else i in
  if (j <? 0) || (n <=? j) then Raise IndexError
  else Ok (<[Z.to_nat j := v]> l).

(** [l[a:]] and [l[a:b]] for non-negative bounds: slices never raise. *)
Definition py_slice_from {A} (l : list A) (a : nat) : list A := drop a l.
Definition py_slice {A} (l : list A) (a b : nat) : list A :=
  take (b - a) (drop a l).

(** [l.insert(i, x)] for a non-negative [i]: past the end it appends. *)
Definition py_insert {A} (l : list A) (i : nat) (x : A) : list A :=
  take i l ++ x :: drop i l.

(** [l.index(x)] when [x in l] holds: position of the first occurrence. *)
Fixpoint py_index (x : string) (l : list string) : option nat :=
  match l with
  | [] => None
  | y :: l' => if String.eqb y x then Some O else S <$> py_index x l'
  end.

(** ** Numeric builtins *)

(** [int(text)] on a [str]: surrounding whitespace is ignored, then an
    optional sign and at least one decimal digit; anything else is a
    [ValueError]. *)
Definition py_int (text : string) : result Z :=
  let '(neg, body) := Str.split_sign (Str.strip text) in
  if Str.is_empty body || negb (Str.all_digits body) then Raise ValueError
  else
    let v := Str.digits_val 0 body in
    Ok (if neg then - v else v).

(** [float(text)] on a [str]: surrounding whitespace is ignored, then an
    optional sign and either [inf], [infinity] or [nan] in any case, or a
    decimal number: digits with an optional point (at least one digit on one
    side of it) and an optional exponent. *)
Definition py_float (text : string) : result pyfloat :=
  let '(neg, body) := Str.split_sign (Str.strip text) in
  let low := Str.lower_str body in
  if String.eqb low "inf" || String.eqb low "infinity" then Ok (FInf neg)
  else if String.eqb low "nan" then Ok FNan
  else
    let '(ip, r1) := Str.span_digits body in
    let '(fp, r2) :=
      match r1 with
      | String c r => if Ascii.eqb c "." then Str.span_digits r else ("", r1)
      | EmptyString => ("", r1)
      end in
    if Str.is_empty ip && Str.is_empty fp then Raise ValueError
    else
      let mant := Str.digits_val 0 (ip +:+ fp) in
      let scale := Z.of_nat (String.length fp) in
      match r2 with
      | EmptyString => Ok (FDec neg mant (- scale))
      | String c r3 =>
          if Ascii.eqb (Str.lower c) "e" then
            let '(eneg, r4) := Str.split_sign r3 in
            if Str.is_empty r4 || negb (Str.all_digits r4) then Raise ValueError
            else
              let e := Str.digits_val 0 r4 in
              Ok (FDec neg mant ((if eneg then - e else e) - scale))
          else Raise ValueError
      end.

(** [try: body / except ValueError: handler] *)
Definition except_ValueError {A} (body handler : result A) : result A :=
  match body with
  | Raise ValueError => handler
  | r => r
  end.

(** ** [_number] *)

Definition _number (text : string) : result value :=
  except_ValueError (VInt <$> py_int text)
    (except_ValueError (VFloat <$> py_float text)
       (Ok (VStr text))).

(** ** The host *)

(** What the module reads from its collaborators.  [read_file p] is [None]
    when [os.path.isfile(p)] is false.  [statvfs p] gives [f_bsize],
    [f_bavail] and [f_blocks], or raises [OSError].  [big_endian] is the
    native byte order seen by [struct.unpack('@i', ...)]. *)
Record World : Type := {
  cmd_run : string -> string;
  sysctl_get : string -> string;
  grains_ps : string;
  which : string -> option string;
  read_file : string -> option string;
  statvfs : string -> result (Z * Z * Z);
  big_endian : bool
}.

Definition NL : ascii := Str.chr 10.

(** A dictionary display [{k1: v1, ...}]: later keys overwrite earlier ones. *)
Definition py_dict (items : list (string * value)) : value :=
  VDict (foldl (fun d kv => <[kv.1 := kv.2]> d) ∅ items).

(** [_number(comps[i])] *)
Definition field (comps : list string) (i : Z) : result value :=
  tok ← py_get comps i; _number tok.

(** The names bound at module level: the imports, the names the loader
    injects, and the functions defined in the file. *)
Definition module_globals : list string :=
  ["fnmatch"; "os"; "re"; "struct"; "salt"; "__opts__"; "__salt__";
   "__grains__"; "__virtual__"; "_number"; "procs"; "custom"; "uptime";
   "loadavg"; "_cputime"; "cpustats"; "_meminfo"; "cpuinfo"; "diskstats";
   "diskusage"; "vmstats"; "netstats"; "netdev"; "w"; "all_status"; "pid"].

(** Reading a name that is bound neither in the module nor in the
    builtins. *)
Definition unbound_global {A} (name : string) : result A :=
  Raise (NameError name).

(** ** [procs] *)

(** [guide.index(a) if a in guide, elif b in guide: guide.index(b)], else
    the initial 0 *)
Definition column (a b : string) (guide : list string) : nat :=
  match py_index a guide with
  | Some i => i
  | None => default 0%nat (py_index b guide)
  end.

Definition procs_line (uind pind cind : nat) (ret : gmap string value)
    (line : string) : result (gmap string value) :=
  if Str.is_empty line then Ok ret
  else
    let comps := Str.split line in
    user ← py_get comps (Z.of_nat uind);
    let cmd := Str.join " " (py_slice_from comps cind) in
    key ← py_get comps (Z.of_nat pind);
    Ok (<[key := py_dict [("user", VStr user); ("cmd", VStr cmd)]]> ret).

Definition procs_text (text : string) : result value :=
  match Str.split_on NL text with
  | [] => Raise IndexError
  | first :: plines =>
      let guide := Str.split first in
      let uind := column "USER" "UID" guide in
      let pind := column "PID" "PID" guide in
      let cind := column "COMMAND" "CMD" guide in
      VDict <$> for_in (procs_line uind pind cind) plines ∅
  end.

Definition procs (host : World) : result value :=
  procs_text (cmd_run host (grains_ps host)).

(** ** [uptime] and [loadavg] *)

Definition uptime (host : World) : result value :=
  Ok (VStr (Str.strip (cmd_run host "uptime"))).

Definition loadavg (host : World) : result value :=
  let load_avg :=
    Str.split (Str.replace_char "," "." (sysctl_get host "vm.loadavg")) in
  a ← field load_avg 1;
  b ← field load_avg 2;
  c ← field load_avg 3;
  Ok (py_dict [("1-min", a); ("5-min", b); ("15-min", c)]).

(** ** [_cputime] and [cpustats] *)

Definition _cputime (user nice system irq idle : string) : result value :=
  u ← _number user;
  n ← _number nice;
  s ← _number system;
  q ← _number irq;
  i ← _number idle;
  Ok (py_dict [("user", u); ("nice", n); ("system", s); ("irq", q);
               ("idle", i)]).

(** [_cputime( *args )]: a [TypeError] unless there are exactly five. *)
Definition _cputime_star (args : list string) : result value :=
  match args with
  | [a; b; c; d; e] => _cputime a b c d e
  | _ => Raise TypeError
  end.

(** ['{0} ...'.format(salt.utils.which(name))]: [None] prints as "None". *)
Definition which_str (host : World) (name : string) : string :=
  default "None" (which host name).

Definition byte_val (c : ascii) : Z := Z.of_nat (nat_of_ascii c).

(** [struct.unpack('@i', s)[0]]: a signed 32-bit integer in native byte
    order, [struct.error] unless [s] has four bytes. *)
Definition struct_unpack_i (be : bool) (s : string) : result Z :=
  match list_ascii_of_string s with
  | [b0; b1; b2; b3] =>
      let '(x0, x1, x2, x3) :=
        if be then (b3, b2, b1, b0) else (b0, b1, b2, b3) in
      let u := byte_val x0 + 256 * byte_val x1 + 65536 * byte_val x2
               + 16777216 * byte_val x3 in
      Ok (if 2147483648 <=? u then u - 4294967296 else u)
  | _ => Raise StructError
  end.

(** The per-core loop: [for ncpu in range(len(cpus)/5)]. *)
Definition cpustats_core (cpus : list string) (ret : gmap string value)
    (ncpu : nat) : result (gmap string value) :=
  rec ← _cputime_star (py_slice cpus (ncpu * 5) ((ncpu + 1) * 5));
  Ok (<["cpu" +:+ pretty ncpu := rec]> ret).

Definition cpustats_cores (cpus : list string) (ret : gmap string value)
  : result (gmap string value) :=
  for_in (cpustats_core cpus) (seq 0 (List.length cpus / 5)%nat) ret.

(** The body of [if l.startswith('irq')].  A float or text IRQ number ends
    in a [TypeError]: at the subtraction when the comparison holds, at the
    list index otherwise. *)
Definition irq_line (irqs : list value) (l : string) : result (list value) :=
  match Str.split l with
  | [irqname; dev; total; rate] =>
      name ← py_get (Str.split_on ":" irqname) 0;
      irqnum ← _number (Str.drop 3 name);
      match irqnum with
      | VInt n =>
          let len := Z.of_nat (List.length irqs) in
          let irqs : list value :=
            if len <? n then (irqs ++ replicate (Z.to_nat (n - len)) (VInt 0))%list
            else irqs in
          v ← _number total;
          py_set irqs (n - 1) v
      | _ => Raise TypeError
      end
  | _ => Raise ValueError
  end.

(** One line of [vmstat -i]; the state is [ret['intr']] and [irqs]. *)
Definition intr_line (st : gmap string value * list value) (l : string)
  : result (gmap string value * list value) :=
  let '(intr, irqs) := st in
  if Str.startswith "irq" l then
    irqs' ← irq_line irqs l; Ok (intr, irqs')
  else if Str.startswith "Total" l then
    v ← field (Str.split l) 1; Ok (<["total" := v]> intr, irqs)
  else Ok st.

Definition cpustats_intr (text : string) : result (gmap string value) :=
  '(intr, irqs) ← for_in intr_line (Str.splitlines text) (∅, []);
  Ok (<["irqs" := VList irqs]> intr).

Record ProcCounts : Type := {
  processes : Z;
  procs_blocked : Z;
  procs_running : Z
}.

Definition no_procs : ProcCounts :=
  {| processes := 0; procs_blocked := 0; procs_running := 0 |}.

(** One row of the process listing in the counting loop. *)
Definition ps_row (c : ProcCounts) (l : string) : result ProcCounts :=
  let pss := Str.split l in
  vsz ← py_get pss 4;
  if String.eqb vsz "0" then Ok c
  else
    stat ← py_get pss 7;
    let blocked :=
      if Str.contains "D" stat then procs_blocked c + 1 else procs_blocked c in
    let running :=
      if Str.contains "R" stat then procs_running c + 1 else procs_running c in
    Ok {| processes := processes c + 1;
          procs_blocked := blocked;
          procs_running := running |}.

Definition cpustats_procs (text : string) : result ProcCounts :=
  for_in ps_row (Str.splitlines text) no_procs.

Definition cpustats (host : World) : result value :=
  let cmd := which_str host "sysctl" +:+ " -b kern.boottime" in
  btime ← struct_unpack_i (big_endian host) (Str.take 4 (cmd_run host cmd));
  let ret := <["btime" := VInt btime]> (∅ : gmap string value) in
  cpu ← _cputime_star (Str.split (sysctl_get host "kern.cp_time"));
  let ret := <["cpu" := cpu]> ret in
  ret ← cpustats_cores (Str.split (sysctl_get host "kern.cp_times")) ret;
  let cmd := which_str host "vmstat" +:+ " -i" in
  intr ← cpustats_intr (cmd_run host cmd);
  let ret := <["intr" := VDict intr]> ret in
  c ← cpustats_procs (cmd_run host (grains_ps host));
  Ok (VDict (<["processes" := VInt (processes c)]>
            (<["procs_running" := VInt (procs_running c)]>
            (<["procs_blocked" := VInt (procs_blocked c)]> ret)))).

(** ** [cpuinfo] *)

(** Both paths end at a name that is not bound: [_cpuinfo_dmidecode] when
    [dmidecode] is found, [ret] otherwise. *)
Definition cpuinfo (host : World) : result value :=
  match which host "dmidecode" with
  | Some (String _ _) => unbound_global "_cpuinfo_dmidecode"
  | _ => unbound_global "ret"
  end.

(** ** [diskstats] *)

Definition diskstats_line (ret : gmap string value) (line : string)
  : result (gmap string value) :=
  if Str.is_empty line then Ok ret
  else
    let comps := Str.split line in
    major ← field comps 0;
    minor ← field comps 1;
    device ← field comps 2;
    reads_issued ← field comps 3;
    reads_merged ← field comps 4;
    sectors_read ← field comps 5;
    ms_spent_reading ← field comps 6;
    writes_completed ← field comps 7;
    writes_merged ← field comps 8;
    sectors_written ← field comps 9;
    ms_spent_writing ← field comps 10;
    io_in_progress ← field comps 11;
    ms_spent_in_io ← field comps 12;
    weighted_ms_spent_in_io ← field comps 13;
    key ← py_get comps 2;
    Ok (<[key := py_dict
            [("major", major); ("minor", minor); ("device", device);
             ("reads_issued", reads_issued); ("reads_merged", reads_merged);
             ("sectors_read", sectors_read);
             ("ms_spent_reading", ms_spent_reading);
             ("writes_completed", writes_completed);
             ("writes_merged", writes_merged);
             ("sectors_written", sectors_written);
             ("ms_spent_writing", ms_spent_writing);
             ("io_in_progress", io_in_progress);
             ("ms_spent_in_io", ms_spent_in_io);
             ("weighted_ms_spent_in_io", weighted_ms_spent_in_io)]]> ret).

Definition diskstats_text (text : string) : result value :=
  VDict <$> for_in diskstats_line (Str.split_on NL text) ∅.

Definition diskstats (host : World) : result value :=
  match read_file host "/proc/diskstats" with
  | None => Ok (VDict ∅)
  | Some text => diskstats_text text
  end.

(** ** [vmstats] *)

Definition vmstats_line (ret : gmap string value) (line : string)
  : result (gmap string value) :=
  if Str.is_empty line then Ok ret
  else
    let comps := Str.split line in
    v ← field comps 1;
    key ← py_get comps 0;
    Ok (<[key := v]> ret).

Definition vmstats_text (text : string) : result value :=
  VDict <$> for_in vmstats_line (Str.split_on NL text) ∅.

Definition vmstats (host : World) : result value :=
  match read_file host "/proc/vmstat" with
  | None => Ok (VDict ∅)
  | Some text => vmstats_text text
  end.

(** ** [netstats] *)

(** The inner loop [for field in range(index)] with its [field < 1] skip. *)
Definition netstats_field (headers comps : list string)
    (row : gmap string value) (i : nat) : result (gmap string value) :=
  if (i <? 1)%nat then Ok row
  else
    v ← field comps (Z.of_nat i);
    h ← py_get headers (Z.of_nat i);
    Ok (<[h := v]> row).

(** One line; the state is [ret] and the current [headers]. *)
Definition netstats_line (st : gmap string value * list string)
    (line : string) : result (gmap string value * list string) :=
  let '(ret, headers) := st in
  if Str.is_empty line then Ok st
  else
    let comps := Str.split line in
    c0 ← py_get comps 0;
    h0 ← py_get headers 0;
    if String.eqb c0 h0 then
      let index := (List.length headers - 1)%nat in
      row ← for_in (netstats_field headers comps) (seq 0 index) ∅;
      let rowname := Str.remove_char ":" h0 in
      Ok (<[rowname := VDict row]> ret, headers)
    else Ok (ret, comps).

Definition netstats_text (text : string) : result value :=
  '(ret, _) ← for_in netstats_line (Str.split_on NL text) (∅, [""]);
  Ok (VDict ret).

Definition netstats (host : World) : result value :=
  match read_file host "/proc/net/netstat" with
  | None => Ok (VDict ∅)
  | Some text => netstats_text text
  end.

(** ** [netdev] *)

(** The token list after [comps[0] = ...] and [comps.insert(1, ...)]. *)
Definition netdev_comps (line : string) : result (list string) :=
  let comps := Str.split line in
  name ← py_get (Str.split_on ":" line) 0;
  comps ← py_set comps 0 (Str.strip name);
  rest ← py_get (Str.split_on ":" line) 1;
  first ← py_get (Str.split (Str.strip rest)) 0;
  Ok (py_insert comps 1 first).

Definition netdev_line (ret : gmap string value) (line : string)
  : result (gmap string value) :=
  if Str.is_empty line then Ok ret
  else if negb (Str.contains ":" line) then Ok ret
  else
    comps ← netdev_comps line;
    iface ← py_get comps 0;
    rx_bytes ← field comps 1;
    rx_compressed ← field comps 7;
    rx_drop ← field comps 4;
    rx_errs ← field comps 3;
    rx_fifo ← field comps 5;
    rx_frame ← field comps 6;
    rx_multicast ← field comps 8;
    rx_packets ← field comps 2;
    tx_bytes ← field comps 9;
    tx_carrier ← field comps 15;
    tx_colls ← field comps 14;
    tx_compressed ← field comps 16;
    tx_drop ← field comps 12;
    tx_errs ← field comps 11;
    tx_fifo ← field comps 13;
    tx_packets ← field comps 10;
    key ← py_get comps 0;
    Ok (<[key := py_dict
            [("iface", VStr iface); ("rx_bytes", rx_bytes);
             ("rx_compressed", rx_compressed); ("rx_drop", rx_drop);
             ("rx_errs", rx_errs); ("rx_fifo", rx_fifo);
             ("rx_frame", rx_frame); ("rx_multicast", rx_multicast);
             ("rx_packets", rx_packets); ("tx_bytes", tx_bytes);
             ("tx_carrier", tx_carrier); ("tx_colls", tx_colls);
             ("tx_compressed", tx_compressed); ("tx_drop", tx_drop);
             ("tx_errs", tx_errs); ("tx_fifo", tx_fifo);
             ("tx_packets", tx_packets)]]> ret).

Definition netdev_text (text : string) : result value :=
  VDict <$> for_in netdev_line (Str.split_on NL text) ∅.

Definition netdev (host : World) : result value :=
  match read_file host "/proc/net/dev" with
  | None => Ok (VDict ∅)
  | Some text => netdev_text text
  end.

(** ** [w] *)

Definition w_row (user_list : list value) (row : string)
  : result (list value) :=
  if Str.is_empty row then Ok user_list
  else
    let comps := Str.split row in
    idle ← py_get comps 3;
    jcpu ← py_get comps 4;
    login ← py_get comps 2;
    pcpu ← py_get comps 5;
    tty ← py_get comps 1;
    user ← py_get comps 0;
    let what := Str.join " " (py_slice_from comps 6) in
    Ok (user_list ++
        [py_dict [("idle", VStr idle); ("jcpu", VStr jcpu);
                  ("login", VStr login); ("pcpu", VStr pcpu);
                  ("tty", VStr tty); ("user", VStr user);
                  ("what", VStr what)]])%list.

Definition w_text (text : string) : result value :=
  VList <$> for_in w_row (Str.split_on NL text) [].

Definition w (host : World) : result value :=
  w_text (cmd_run host "w -h").

(** ** [all_status] *)

(** The display evaluates its values in source order.  [meminfo] is not a
    name of the module (only [_meminfo] is). *)
Definition all_status (host : World) : result value :=
  v_cpuinfo ← cpuinfo host;
  v_cpustats ← cpustats host;
  v_diskstats ← diskstats host;
  v_loadavg ← loadavg host;
  v_meminfo ← unbound_global "meminfo";
  v_netdev ← netdev host;
  v_netstats ← netstats host;
  v_uptime ← uptime host;
  v_vmstats ← vmstats host;
  v_w ← w host;
  Ok (py_dict [("cpuinfo", v_cpuinfo); ("cpustats", v_cpustats);
               ("diskstats", v_diskstats); ("loadavg", v_loadavg);
               ("meminfo", v_meminfo); ("netdev", v_netdev);
               ("netstats", v_netstats); ("uptime", v_uptime);
               ("vmstats", v_vmstats); ("w", v_w)]).


(** ** [fnmatch.translate] and the compiled pattern *)

(** The pieces [fnmatch.translate] emits: [.*] for a star, [.] for a
    question mark, a bracket expression with the text between the brackets,
    and an escaped literal.  The text always ends with [\Z(?ms)], so a match
    must cover the whole subject and [.] also matches a newline. *)
Inductive glob_atom : Type :=
| GStar
| GAny
| GLit (c : ascii)
| GClass (stuff : string).

Module Fnmatch.

(** text up to the first [c], when there is one *)
Fixpoint until (c : ascii) (s : string) : option string :=
  match s with
  | EmptyString => None
  | String b s' =>
      if Ascii.eqb b c then Some ""
      else String b <$> until c s'
  end.

(** [pat[i:j]] for the [j] found by the scan after an opening bracket: an
    optional [!], an optional [[]]], then everything up to the next
    closing bracket; [None] when the scan reaches the end. *)
Definition class_body (s : string) : option string :=
  let '(bang, s1) :=
    match s with
    | String c r => if Ascii.eqb c "!" then ("!", r) else ("", s)
    | EmptyString => ("", s)
    end in
  let '(close, s2) :=
    match s1 with
    | String c r => if Ascii.eqb c "]" then ("]", r) else ("", s1)
    | EmptyString => ("", s1)
    end in
  (fun mid => bang +:+ close +:+ mid) <$> until "]" s2.

(** [skip] counts the characters of a bracket expression still to pass. *)
Fixpoint translate_go (skip : nat) (s : string) : list glob_atom :=
  match s with
  | EmptyString => []
  | String c s' =>
      match skip with
      | S k => translate_go k s'
      | O =>
          if Ascii.eqb c "*" then GStar :: translate_go O s'
          else if Ascii.eqb c "?" then GAny :: translate_go O s'
          else if Ascii.eqb c "[" then
            match class_body s' with
            | Some stuff =>
                GClass stuff :: translate_go (S (String.length stuff)) s'
            | None => GLit c :: translate_go O s'
            end
          else GLit c :: translate_go O s'
      end
  end.

Definition translate (pat : string) : list glob_atom := translate_go O pat.

End Fnmatch.

(** A compiled piece: a bracket expression becomes a negation flag and a
    list of inclusive character ranges. *)
Inductive re_atom : Type :=
| RStar
| RAny
| RLit (c : ascii)
| RSet (neg : bool) (ranges : list (ascii * ascii)).

Module Re.

Definition ord (c : ascii) : nat := nat_of_ascii c.

(** The members of a bracket expression as the regular-expression parser
    reads them: [a-b] is a range ([bad character range] when [b < a]), a
    final [-] is literal. *)
Fixpoint set_items (s : string) : result (list (ascii * ascii)) :=
  match s with
  | EmptyString => Ok []
  | String a s1 =>
      match s1 with
      | String dash (String b r) =>
          if Ascii.eqb dash "-" then
            if (ord b <? ord a)%nat then Raise ReError
            else cons (a, b) <$> set_items r
          else cons (a, a) <$> set_items s1
      | _ => cons (a, a) <$> set_items s1
      end
  end.

(** [translate] turns a leading [!] into the negation [^], and escapes a
    leading [^] and every backslash, which makes them literal members. *)
Definition compile_atom (g : glob_atom) : result re_atom :=
  match g with
  | GStar => Ok RStar
  | GAny => Ok RAny
  | GLit c => Ok (RLit c)
  | GClass stuff =>
      let '(neg, body) :=
        match stuff with
        | String c r => if Ascii.eqb c "!" then (true, r) else (false, stuff)
        | EmptyString => (false, stuff)
        end in
      RSet neg <$> set_items body
  end.

Fixpoint compile_atoms (gs : list glob_atom) : result (list re_atom) :=
  match gs with
  | [] => Ok []
  | g :: gs' => a ← compile_atom g; cons a <$> compile_atoms gs'
  end.

Definition in_set (ranges : list (ascii * ascii)) (c : ascii) : bool :=
  existsb (fun r => (ord r.1 <=? ord c)%nat && (ord c <=? ord r.2)%nat) ranges.

(** anchored at both ends *)
Fixpoint matches (atoms : list re_atom) (s : string) : bool :=
  match atoms with
  | [] => Str.is_empty s
  | RStar :: rest =>
      (fix star (t : string) : bool :=
         matches rest t ||
         match t with
         | String _ t' => star t'
         | EmptyString => false
         end) s
  | RAny :: rest =>
      match s with
      | String _ s' => matches rest s'
      | EmptyString => false
      end
  | RLit c :: rest =>
      match s with
      | String b s' => Ascii.eqb b c && matches rest s'
      | EmptyString => false
      end
  | RSet neg ranges :: rest =>
      match s with
      | String b s' => xorb neg (in_set ranges b) && matches rest s'
      | EmptyString => false
      end
  end.

End Re.

(** ** [diskusage] *)

Definition has_brace (pat : string) : bool :=
  Str.contains "{" pat || Str.contains "}" pat.

Section Diskusage.

(** The translated text goes through [.format("(%s)")] before it is
    compiled.  Without a brace that call returns its text unchanged.  With
    one, [str.format] reads replacement fields in the regular expression;
    what comes out (an exception, or some other pattern) is left to this
    parameter, which receives the patterns in iteration order. *)
Variable braced_compile : list string -> result (string -> bool).

(** The two sets built from the arguments: [(selected, fstypes)]. *)
Definition diskusage_arg (st : gset string * gset string) (arg : string)
  : gset string * gset string :=
  if Str.startswith "/" arg then ({[arg]} ∪ st.1, st.2)
  else (st.1, {[arg]} ∪ st.2).

Definition diskusage_args (args : list string) : gset string * gset string :=
  match args with
  | [] => (∅, {["*"]})
  | _ => foldl diskusage_arg (∅, ∅) args
  end.

(** One alternative of the joined expression. *)
Definition compile_pattern (progs : list (list re_atom)) (pat : string)
  : result (list (list re_atom)) :=
  prog ← Re.compile_atoms (Fnmatch.translate pat);
  Ok (progs ++ [prog])%list.

(** [re.compile('|'.join(...))] and its [match]: some alternative covers
    the whole subject. *)
Definition compile_fstypes (fstypes : gset string)
  : result (string -> bool) :=
  let pats := elements fstypes in
  if existsb has_brace pats then braced_compile pats
  else
    progs ← for_in compile_pattern pats [];
    Ok (fun subject => existsb (fun prog => Re.matches prog subject) progs).

(** One line of the mount table.  A line read from the file keeps its
    terminator, which [split()] drops like any other white space. *)
Definition mounts_line (p : string -> bool) (selected : gset string)
    (line : string) : gset string :=
  match Str.split line with
  | _ :: mntpt :: fstype :: _ =>
      if p fstype then {[mntpt]} ∪ selected else selected
  | _ => selected
  end.

(** [selected] as it stands when the query loop starts. *)
Definition diskusage_selected (args : list string) (mounts : string)
  : result (gset string) :=
  let '(selected, fstypes) := diskusage_args args in
  if (0 <? size fstypes)%nat then
    p ← compile_fstypes fstypes;
    Ok (foldl (mounts_line p) selected (Str.split_on NL mounts))
  else Ok selected.

Definition diskusage_query (host : World) (ret : gmap string value)
    (path : string) : result (gmap string value) :=
  '(blksz, bavail, blocks) ← statvfs host path;
  Ok (<[path := py_dict [("available", VInt (bavail * blksz));
                         ("total", VInt (blocks * blksz))]]> ret).

Definition diskusage (host : World) (args : list string) : result value :=
  match read_file host "/proc/mounts" with
  | None => Ok (VDict ∅)
  | Some mounts =>
      selected ← diskusage_selected args mounts;
      VDict <$> for_in (diskusage_query host) (elements selected) ∅
  end.

End Diskusage.

Definition unlines (l : list string) : string := Str.join (String NL "") l.

(** [d[k]] on a value that is a dictionary *)
Definition item (v : value) (k : string) : option value :=
  match v with
  | VDict d => d !! k
  | _ => None
  end.

(** [r[k1][k2]] on the outcome of an operation *)
Definition item2 (r : result value) (k1 k2 : string) : option value :=
  match r with
  | Ok v => item v k1 ≫= fun row => item row k2
  | Raise _ => None
  end.

(** ** What the specification says about [_number] *)

(** The pattern [^-?\d+$]: an optional minus sign and one or more digits. *)
Definition re_int (t : string) : bool :=
  match t with
  | String c r =>
      if Ascii.eqb c "-" then negb (Str.is_empty r) && Str.all_digits r
      else Str.all_digits t
  | EmptyString => false
  end.

Fixpoint all_space (s : string) : bool :=
  match s with
  | EmptyString => true
  | String c s' => Str.is_space c && all_space s'
  end.

(** [t] is white space, an optional sign, one or more digits writing
    [z] up to the sign, and white space. *)
Definition int_literal (t : string) (z : Z) : Prop :=
  exists pre sign ds post,
    t = pre +:+ sign +:+ ds +:+ post /\
    all_space pre = true /\ all_space post = true /\
    ds <> "" /\ Str.all_digits ds = true /\
    ((sign = "" /\ z = Str.digits_val 0 ds) \/
     (sign = "+" /\ z = Str.digits_val 0 ds) \/
     (sign = "-" /\ z = - Str.digits_val 0 ds)).

(** a string without white space is left alone *)
Fixpoint no_space (s : string) : bool :=
  match s with
  | EmptyString => true
  | String c s' => negb (Str.is_space c) && no_space s'
  end.

(** * Vocabulary of the statements, and sample inputs *)

Definition netstats_sample : string :=
  unlines ["Tcp: a b"; "Tcp: 1 2"; "Udp: x"; "Udp: 9"].

Definition host_with_file (path text : string) : World :=
  {| cmd_run := fun _ => "";
     sysctl_get := fun _ => "";
     grains_ps := "ps auxwww";
     which := fun _ => None;
     read_file := fun p => if String.eqb p path then Some text else None;
     statvfs := fun _ => Raise OSError;
     big_endian := false |}.

Definition netdev_tight : string :=
  "eth0:1000 10 0 0 0 0 0 0 2000 20 0 0 0 0 0 0".
Definition netdev_spaced : string :=
  "eth0: 1000 10 0 0 0 0 0 0 2000 20 0 0 0 0 0 0".

(** The value [_number] returns for a token. *)
Definition coerced (t : string) : value :=
  match _number t with
  | Ok v => v
  | Raise _ => VStr t
  end.

(** [cpus[j]], for [j] within the list *)
Definition tok (cpus : list string) (j : nat) : string :=
  default "" (cpus !! j).

(** The record of core [i]: tokens [5i .. 5i+4] in the order user, nice,
    system, irq, idle. *)
Definition core_record (cpus : list string) (i : nat) : value :=
  py_dict [("user", coerced (tok cpus (5 * i)));
           ("nice", coerced (tok cpus (5 * i + 1)));
           ("system", coerced (tok cpus (5 * i + 2)));
           ("irq", coerced (tok cpus (5 * i + 3)));
           ("idle", coerced (tok cpus (5 * i + 4)))].

Definition core_key (i : nat) : string := "cpu" +:+ pretty i.

Definition cores_sample : string :=
  "100 1 2 3 4  200 5 6 7 8  300 9 10 11 12".

Definition cpu_host : World :=
  {| cmd_run := fun cmd =>
       if String.eqb cmd "/sbin/sysctl -b kern.boottime" then "abcd" else "";
     sysctl_get := fun name =>
       if String.eqb name "kern.cp_time" then "600 15 18 21 24"
       else if String.eqb name "kern.cp_times" then cores_sample
       else "";
     grains_ps := "ps auxwww";
     which := fun name => Some ("/sbin/" +:+ name);
     read_file := fun _ => None;
     statvfs := fun _ => Raise OSError;
     big_endian := false |}.

(** How one row moves the three counters, for a row that is not a kernel
    thread and whose state-flags field is [stat]. *)
Definition counted (c : ProcCounts) (stat : string) : ProcCounts :=
  {| processes := processes c + 1;
     procs_blocked := procs_blocked c + (if Str.contains "D" stat then 1 else 0);
     procs_running := procs_running c + (if Str.contains "R" stat then 1 else 0) |}.

(** Rows of a listing, classified by their fifth and eighth fields. *)
Definition is_kthread (l : string) : bool :=
  String.eqb (tok (Str.split l) 4) "0".
Definition is_process (l : string) : bool := negb (is_kthread l).
Definition is_blocked (l : string) : bool :=
  is_process l && Str.contains "D" (tok (Str.split l) 7).
Definition is_running (l : string) : bool :=
  is_process l && Str.contains "R" (tok (Str.split l) 7).

Definition count_rows (p : string -> bool) (rows : list string) : Z :=
  Z.of_nat (List.length (List.filter p rows)).

Definition ps_sample : string :=
  unlines ["root 0 0.0 0.0 0 0 - DLs 1:00 0:00 [kernel]";
           "bob 5 0.0 0.0 100 10 - D 1:00 0:00 sync";
           "bob 6 0.0 0.0 100 10 - R+ 1:00 0:00 make";
           "bob 7 0.0 0.0 100 10 - Ss 1:00 0:00 sh"].

Definition ps_row_both : string := "bob 5 0.0 0.0 100 10 - DR 1:00 0:00 x".
Definition ps_row_short : string := "bob 5 0.0 0.0 100".






(** What the loop reads on an [irq] line: the IRQ number and the total,
    when the line has exactly four fields and the text after [irq] in the
    first one, up to its colon, is an integer. *)
Definition irq_fields (l : string) : option (Z * string) :=
  match Str.split l with
  | [irqname; dev; total; rate] =>
      match name ← py_get (Str.split_on ":" irqname) 0;
            _number (Str.drop 3 name) with
      | Ok (VInt n) => Some (n, total)
      | _ => None
      end
  | _ => None
  end.

(** A line the loop can take: an [irq] line with four fields and a positive
    IRQ number, a [Total] line with a second field, or any other line. *)
Definition intr_line_ok (l : string) : bool :=
  if Str.startswith "irq" l then
    match irq_fields l with
    | Some (n, _) => 1 <=? n
    | None => false
    end
  else if Str.startswith "Total" l then
    (2 <=? List.length (Str.split l))%nat
  else true.

(** The IRQ numbers that appear in a listing. *)
Definition irq_numbers (lines : list string) : list Z :=
  omap (fun l => if Str.startswith "irq" l then fst <$> irq_fields l else None)
       lines.

Definition highest_irq (lines : list string) : Z :=
  foldr Z.max 0 (irq_numbers lines).

(** [irqs[j]], reading zero past the end *)
Definition irq_at (irqs : list value) (j : nat) : value :=
  default (VInt 0) (irqs !! j).

Definition intr_sample : string :=
  unlines ["interrupt                          total       rate";
           "irq1: atkbd0                           8          0";
           "irq4: uart0                          120          1";
           "cpu0:timer                         90000         99";
           "Total                              90128        100"].

Definition intr_shared : string := "irq16: uhci0 uhci3 7 0".

(** The list after the padding step of an [irq] line with number [n]. *)
Definition padded (irqs : list value) (n : Z) : list value :=
  irqs ++ replicate (Z.to_nat (n - Z.of_nat (List.length irqs))) (VInt 0).

(** [fnmatch]: the subject is covered by the translated pattern.  A pattern
    whose bracket expression does not compile matches nothing here; the
    theorems below only use it on patterns that compile. *)
Definition glob_matches (pat subject : string) : bool :=
  match Re.compile_atoms (Fnmatch.translate pat) with
  | Ok prog => Re.matches prog subject
  | Raise _ => false
  end.

(** A pattern [diskusage] can compile: no brace, and every bracket
    expression is a valid set. *)
Definition glob_ok (pat : string) : bool :=
  negb (has_brace pat) &&
  match Re.compile_atoms (Fnmatch.translate pat) with
  | Ok _ => true
  | Raise _ => false
  end.

(** The explicit paths and the fstype patterns among the arguments; without
    arguments the single pattern [*]. *)
Definition arg_paths (args : list string) : list string :=
  List.filter (Str.startswith "/") args.
Definition arg_globs (args : list string) : list string :=
  match args with
  | [] => ["*"]
  | _ => List.filter (fun a => negb (Str.startswith "/" a)) args
  end.

(** The mount table has a line with at least three fields whose second is
    [mntpt] and whose third is [fstype]. *)
Definition mount_entry (mounts mntpt fstype : string) : Prop :=
  exists line dev rest,
    line ∈ Str.split_on NL mounts /\
    Str.split line = dev :: mntpt :: fstype :: rest.

Definition mounts_sample : string :=
  unlines ["/dev/ada0p2 / ext4 rw 0 0";
           "/dev/ada0p3 /home ext3 rw 0 0";
           "/dev/ada1 /old ext2 ro 0 0";
           "/dev/ada2 /odd ext rw 0 0";
           "/dev/ada3 /alien extfs rw 0 0";
           "proc /proc proc rw 0 0";
           ""].

Definition no_braced : list string -> result (string -> bool) :=
  fun _ => Raise ValueError.

(** Lines each parser can take: an empty line, or one with the fields the
    parser indexes. *)
Definition vmstats_line_ok (l : string) : bool :=
  Str.is_empty l || (2 <=? List.length (Str.split l))%nat.

Definition w_row_ok (l : string) : bool :=
  Str.is_empty l || (6 <=? List.length (Str.split l))%nat.

Definition procs_line_ok (uind pind : nat) (l : string) : bool :=
  Str.is_empty l ||
  ((uind <? List.length (Str.split l))%nat &&
   (pind <? List.length (Str.split l))%nat).

(** For [netstats] the fields a line needs depend on the header line in
    force: any non-empty line needs a first token, and a data line (same
    first token as the header) needs as many tokens as the header has,
    minus one. *)
Fixpoint netstats_lines_ok (headers : list string) (lines : list string)
  : bool :=
  match lines with
  | [] => true
  | l :: rest =>
      if Str.is_empty l then netstats_lines_ok headers rest
      else
        match Str.split l with
        | [] => false
        | c0 :: more =>
            if String.eqb c0 (tok headers 0) then
              (List.length headers - 1 <=? List.length (c0 :: more))%nat &&
              netstats_lines_ok headers rest
            else netstats_lines_ok (c0 :: more) rest
        end
  end.

(** The outcome of a parser on a listing that is, or is not, made of lines
    it can take. *)
Definition completes_or_raises {A} (ok : bool) (r : result A) : Prop :=
  if ok then is_ok r else r = Raise IndexError.

Definition vmstats_short : string := unlines ["nr_free_pages 1"; "nr_dirty"].
Definition w_short : string := "bob pts/0 10:00".
Definition procs_short : string := unlines ["USER PID COMMAND"; "root"].
Definition netstats_short : string := unlines ["Tcp: a b c"; "Tcp: 1"].
Definition ragged_sample : string :=
  unlines ["nr_free_pages 1"; ""; "nr_dirty 7 extra"].
(** The inner loop of [netstats] reads [comps[i]] for every [i] from 1. *)
Definition field_ok (comps : list string) (i : nat) : bool :=
  (i <? 1)%nat || (i <? List.length comps)%nat.

(** ** [pid] *)

(** The command line [pid] builds; the signature goes in as it is. *)
Definition pid_cmd (host : World) (sig : string) : string :=
  grains_ps host +:+ " | grep " +:+ sig
  +:+ " | grep -v grep | awk '{print $2}'".

(** [run_stdout] is [__salt__['cmd.run_stdout']]; [None] stands for a
    [None] answer, which [or ''] turns into the empty text. *)
Definition pid (run_stdout : string -> option string) (host : World)
    (sig : string) : result value :=
  Ok (VStr (Str.strip (default "" (run_stdout (pid_cmd host sig))))).

(** The tokens [loadavg] reads. *)
Definition loadavg_tokens (host : World) : list string :=
  Str.split (Str.replace_char "," "." (sysctl_get host "vm.loadavg")).

(** [r] is [s] without its leading and trailing white space. *)
Definition trimmed_of (s r : string) : Prop :=
  Str.lstrip r = r /\ Str.rstrip r = r /\
  exists pre post,
    s = pre +:+ r +:+ post /\ all_space pre = true /\ all_space post = true.

Definition host_with_sysctl (name text : string) : World :=
  {| cmd_run := fun _ => "";
     sysctl_get := fun n => if String.eqb n name then text else "";
     grains_ps := "ps auxwww";
     which := fun _ => None;
     read_file := fun _ => None;
     statvfs := fun _ => Raise OSError;
     big_endian := false |}.
Definition starts_clean (s : string) : bool :=
  match s with
  | String c _ => negb (Str.is_space c)
  | EmptyString => true
  end.

(** A line that is not skipped. *)
Definition nonempty (l : string) : bool := negb (Str.is_empty l).

(** The record [procs] stores for a row, given the USER and COMMAND column
    indices. *)
Definition procs_record (uind cind : nat) (l : string) : value :=
  py_dict [("user", VStr (tok (Str.split l) uind));
           ("cmd", VStr (Str.join " " (py_slice_from (Str.split l) cind)))].

(** The record [w] appends for a row. *)
Definition w_record (l : string) : value :=
  py_dict [("idle", VStr (tok (Str.split l) 3));
           ("jcpu", VStr (tok (Str.split l) 4));
           ("login", VStr (tok (Str.split l) 2));
           ("pcpu", VStr (tok (Str.split l) 5));
           ("tty", VStr (tok (Str.split l) 1));
           ("user", VStr (tok (Str.split l) 0));
           ("what", VStr (Str.join " " (py_slice_from (Str.split l) 6)))].

(** The record [diskstats] stores for a line. *)
Definition diskstats_record (l : string) : value :=
  py_dict [("major", coerced (tok (Str.split l) 0));
           ("minor", coerced (tok (Str.split l) 1));
           ("device", coerced (tok (Str.split l) 2));
           ("reads_issued", coerced (tok (Str.split l) 3));
           ("reads_merged", coerced (tok (Str.split l) 4));
           ("sectors_read", coerced (tok (Str.split l) 5));
           ("ms_spent_reading", coerced (tok (Str.split l) 6));
           ("writes_completed", coerced (tok (Str.split l) 7));
           ("writes_merged", coerced (tok (Str.split l) 8));
           ("sectors_written", coerced (tok (Str.split l) 9));
           ("ms_spent_writing", coerced (tok (Str.split l) 10));
           ("io_in_progress", coerced (tok (Str.split l) 11));
           ("ms_spent_in_io", coerced (tok (Str.split l) 12));
           ("weighted_ms_spent_in_io", coerced (tok (Str.split l) 13))].

Definition diskstats_line_ok (l : string) : bool :=
  Str.is_empty l || (14 <=? List.length (Str.split l))%nat.

(** [k] is bound to [v] by the last line of [lines] that is kept and has
    key [k]; no kept line has key [k]. *)
Definition last_bound {A} (keep : A -> bool) (key : A -> string)
    (lines : list A) (x : A) : Prop :=
  exists pre post,
    lines = (pre ++ x :: post)%list /\ keep x = true /\
    forall y, y ∈ post -> keep y = true -> key y <> key x.

Definition never_bound {A} (keep : A -> bool) (key : A -> string)
    (lines : list A) (k : string) : Prop :=
  forall y, y ∈ lines -> keep y = true -> key y <> k.

Definition vmstats_dup : string :=
  unlines ["pgfault 1"; ""; "pgfree 2"; "pgfault 3"].
Definition procs_dup : string :=
  unlines ["USER PID %CPU COMMAND"; "root 1 0.0 /sbin/init -s";
           ""; "bob 7 0.1 vim notes.txt"].
Definition w_two : string :=
  unlines ["bob pts/0 10:00 1 2 3 vim a  b"; ""; "eve pts/1 11:00 - - - -sh"].
Definition diskstats_two : string :=
  unlines ["8 0 sda 1 2 3 4 5 6 7 8 9 10 11";
           "8 1 sda1 1 2 3 4 5 6 7 8 9 10 11";
           "8 0 sda 21 22 23 24 25 26 27 28 29 30 31"].

(** The keys [cpustats] always writes. *)
Definition cpustats_fixed_keys : gset string :=
  {["btime"]} ∪ {["cpu"]} ∪ {["intr"]} ∪ {["processes"]}
  ∪ {["procs_blocked"]} ∪ {["procs_running"]}.

(** The command whose first four bytes become [btime]. *)
Definition boottime_cmd (host : World) : string :=
  which_str host "sysctl" +:+ " -b kern.boottime".

Definition boot_only_host : World :=
  {| cmd_run := fun _ => "abcd";
     sysctl_get := fun _ => "";
     grains_ps := "ps auxwww";
     which := fun _ => None;
     read_file := fun _ => None;
     statvfs := fun _ => Raise OSError;
     big_endian := false |}.

Definition irq_zero_first : string := "irq0: attimer0 5 0".
Definition irq_zero_later : string :=
  unlines ["irq1: atkbd0 8 0"; "irq4: uart0 120 1"; "irq0: attimer0 5 0"].

(** A header position the inner loop of [netstats] writes. *)
Definition written_column (i : nat) : bool := negb (i <? 1)%nat.

(** What follows the first colon of a [netdev] line, as tokens. *)
Definition after_colon (l : string) : list string :=
  Str.split (Str.strip (tok (Str.split_on ":" l) 1)).

(** A line [netdev] can take: empty, without a colon, or with a token
    after the colon and sixteen fields in all. *)
Definition netdev_line_ok (l : string) : bool :=
  Str.is_empty l || negb (Str.contains ":" l) ||
  (negb (Nat.eqb (List.length (after_colon l)) 0) &&
   (16 <=? List.length (Str.split l))%nat).

Definition netdev_table : string :=
  unlines ["Inter-|   Receive                |  Transmit";
           " face |bytes    packets errs     |bytes    packets";
           "    lo:1000 10 0 0 0 0 0 0 2000 20 0 0 0 0 0 0";
           ""].
Definition netdev_bare : string := "eth0:".

(** The entry [diskusage] stores for a path whose [statvfs] answer is
    [(blksz, bavail, blocks)]. *)
Definition usage_entry (st : Z * Z * Z) : value :=
  let '(blksz, bavail, blocks) := st in
  py_dict [("available", VInt (bavail * blksz));
           ("total", VInt (blocks * blksz))].

(** A pattern without any of the characters [fnmatch] or [str.format]
    treat specially: it names one fstype. *)
Definition plain_pattern (pat : string) : bool :=
  negb (Str.contains "*" pat || Str.contains "?" pat
        || Str.contains "[" pat || has_brace pat).

Definition disk_host (mounts : string) : World :=
  {| cmd_run := fun _ => "";
     sysctl_get := fun _ => "";
     grains_ps := "ps auxwww";
     which := fun _ => None;
     read_file := fun p =>
       if String.eqb p "/proc/mounts" then Some mounts else None;
     statvfs := fun p =>
       if String.eqb p "/" then Ok (512, 100, 400)
       else if String.eqb p "/home" then Ok (4096, 10, 50)
       else Raise OSError;
     big_endian := false |}.
(** The compiled form of a pattern made of literal characters. *)
Fixpoint literal_atoms (s : string) : list re_atom :=
  match s with
  | EmptyString => []
  | String c s' => RLit c :: literal_atoms s'
  end.

(** * Properties *)

(** ** [all_status] *)

Lemma cpuinfo_raises (host : World) :
  cpuinfo host = Raise (NameError "_cpuinfo_dmidecode") \/
  cpuinfo host = Raise (NameError "ret").
Proof.
  unfold cpuinfo, unbound_global.
  destruct (which host "dmidecode") as [[|c p]|]; auto.
Qed.

(** C1 (code defect). [all_status] never returns its composite mapping: the
    first value of the display, [cpuinfo()], ends at an unbound name on
    either of its paths, so every call raises [NameError] whatever the host
    provides.  None of [_cpuinfo_dmidecode], [ret] and [meminfo] is a name
    of the module. *)
Theorem all_status_always_raises :
  (forall host : World,
      all_status host = Raise (NameError "_cpuinfo_dmidecode") \/
      all_status host = Raise (NameError "ret")) /\
  (forall host : World, ~ is_ok (all_status host)) /\
  (forall name, In name ["_cpuinfo_dmidecode"; "ret"; "meminfo"] ->
                ~ In name module_globals).
Proof.
  assert (H : forall host : World,
             all_status host = Raise (NameError "_cpuinfo_dmidecode") \/
             all_status host = Raise (NameError "ret")).
  { intros host. unfold all_status.
    destruct (cpuinfo_raises host) as [E|E]; rewrite E; simpl; auto. }
  split; [exact H|]. split.
  - intros host [v Hv]. destruct (H host) as [E|E]; congruence.
  - intros name Hin Hg. simpl in Hin.
    destruct Hin as [<-|[<-|[<-|[]]]]; vm_compute in Hg;
      repeat (destruct Hg as [Hg|Hg]; [discriminate Hg|]); exact Hg.
Qed.

(** ** [netstats] *)

(** C2 (code defect). On the text "Tcp: a b / Tcp: 1 2 / Udp: x / Udp: 9"
    the parser returns the blocks Tcp and Udp, but the inner loop runs over
    [range(len(headers) - 1)], which stops one short: block Tcp holds only
    a = 1 (b is missing) and block Udp is empty (x is missing). *)
Theorem netstats_sample_drops_last_column :
  netstats (host_with_file "/proc/net/netstat" netstats_sample)
  = Ok (VDict (<["Tcp" := VDict (<["a" := VInt 1]> ∅)]>
              (<["Udp" := VDict ∅]> ∅))) /\
  item2 (netstats_text netstats_sample) "Tcp" "a" = Some (VInt 1) /\
  item2 (netstats_text netstats_sample) "Tcp" "b" = None /\
  item2 (netstats_text netstats_sample) "Udp" "x" = None.
Proof. repeat split; vm_compute; reflexivity. Qed.

(** ** [netdev] *)

(** C3 (code defect). Without a space after the colon the line parses as
    claimed.  With a space, [line.split()] already separates the name from
    the first counter, and [comps.insert(1, ...)] then puts that counter in
    a second time: every later counter moves one place to the right, so
    rx_packets reads 1000, tx_bytes reads 0 and tx_packets reads 2000. *)
Theorem netdev_space_after_colon_shifts :
  (item2 (netdev_text netdev_tight) "eth0" "rx_bytes" = Some (VInt 1000) /\
   item2 (netdev_text netdev_tight) "eth0" "rx_packets" = Some (VInt 10) /\
   item2 (netdev_text netdev_tight) "eth0" "tx_bytes" = Some (VInt 2000) /\
   item2 (netdev_text netdev_tight) "eth0" "tx_packets" = Some (VInt 20)) /\
  (item2 (netdev_text netdev_spaced) "eth0" "rx_bytes" = Some (VInt 1000) /\
   item2 (netdev_text netdev_spaced) "eth0" "rx_packets" = Some (VInt 1000) /\
   item2 (netdev_text netdev_spaced) "eth0" "tx_bytes" = Some (VInt 0) /\
   item2 (netdev_text netdev_spaced) "eth0" "tx_packets" = Some (VInt 2000)) /\
  netdev_text netdev_tight <> netdev_text netdev_spaced.
Proof.
  repeat split; try (vm_compute; reflexivity).
  intros E.
  assert (H : item2 (netdev_text netdev_tight) "eth0" "tx_bytes"
              = item2 (netdev_text netdev_spaced) "eth0" "tx_bytes")
    by (rewrite E; reflexivity).
  vm_compute in H. discriminate H.
Qed.

(** ** [_number] *)

(** ** Stripping *)

Lemma str_app_nil_l (s : string) : "" +:+ s = s.
Proof. reflexivity. Qed.

Lemma str_app_cons (c : ascii) (s t : string) :
  String c s +:+ t = String c (s +:+ t).
Proof. reflexivity. Qed.

Lemma str_app_nil_r (s : string) : s +:+ "" = s.
Proof. induction s as [|c s IH]; [reflexivity|]. now rewrite str_app_cons, IH. Qed.

Lemma str_app_assoc (a b c : string) : (a +:+ b) +:+ c = a +:+ (b +:+ c).
Proof.
  induction a as [|x a IH]; [reflexivity|]. now rewrite !str_app_cons, IH.
Qed.

Lemma lstrip_app_space (pre x : string) :
  all_space pre = true -> Str.lstrip (pre +:+ x) = Str.lstrip x.
Proof.
  induction pre as [|c pre IH]; [reflexivity|]. rewrite str_app_cons. simpl.
  intros H. apply andb_prop in H as [Hc Hp]. rewrite Hc. auto.
Qed.

Lemma rstrip_all_space (post : string) :
  all_space post = true -> Str.rstrip post = "".
Proof.
  induction post as [|c post IH]; simpl; [reflexivity|].
  intros H. apply andb_prop in H as [Hc Hp]. rewrite (IH Hp), Hc. reflexivity.
Qed.

Lemma rstrip_app_space (x post : string) :
  all_space post = true -> Str.rstrip (x +:+ post) = Str.rstrip x.
Proof.
  intros H. induction x as [|c x IH].
  - apply rstrip_all_space, H.
  - rewrite str_app_cons. simpl. rewrite IH. reflexivity.
Qed.

Lemma lstrip_decomp (s : string) :
  exists pre, s = pre +:+ Str.lstrip s /\ all_space pre = true.
Proof.
  induction s as [|c s [pre [E Hp]]]; simpl.
  - exists "". auto.
  - destruct (Str.is_space c) eqn:Hc.
    + exists (String c pre). rewrite str_app_cons. simpl.
      rewrite Hc, Hp. split; [f_equal; exact E|reflexivity].
    + exists "". auto.
Qed.

Lemma rstrip_decomp (s : string) :
  exists post, s = Str.rstrip s +:+ post /\ all_space post = true.
Proof.
  induction s as [|c s [post [E Hp]]]; simpl.
  - exists "". auto.
  - destruct (Str.rstrip s) as [|d r] eqn:Hr.
    + rewrite str_app_nil_l in E. subst s. destruct (Str.is_space c) eqn:Hc.
      * exists (String c post). simpl. rewrite Hc. auto.
      * exists post. auto.
    + exists post. split; [|exact Hp]. rewrite !str_app_cons in *. congruence.
Qed.

Lemma strip_no_space (s : string) : no_space s = true -> Str.strip s = s.
Proof.
  intros H. unfold Str.strip.
  assert (Hl : Str.lstrip s = s).
  { destruct s as [|c s]; simpl in *; [reflexivity|].
    apply andb_prop in H as [Hc _]. apply negb_true_iff in Hc. now rewrite Hc. }
  rewrite Hl. clear Hl.
  induction s as [|c s IH]; simpl in *; [reflexivity|].
  apply andb_prop in H as [Hc Hs]. apply negb_true_iff in Hc.
  rewrite (IH Hs). destruct s; [now rewrite Hc|reflexivity].
Qed.

Lemma strip_around (pre body post : string) :
  all_space pre = true -> all_space post = true -> no_space body = true ->
  body <> "" ->
  Str.strip (pre +:+ body +:+ post) = body.
Proof.
  intros Hpre Hpost Hb Hne. unfold Str.strip.
  rewrite lstrip_app_space by exact Hpre.
  assert (Hl : Str.lstrip (body +:+ post) = body +:+ post).
  { destruct body as [|c b]; [congruence|]. rewrite str_app_cons. simpl in *.
    apply andb_prop in Hb as [Hc _]. apply negb_true_iff in Hc. now rewrite Hc. }
  rewrite Hl, rstrip_app_space by exact Hpost.
  pose proof (strip_no_space body Hb) as Hs. unfold Str.strip in Hs.
  destruct body as [|c b]; [congruence|]. simpl in Hb.
  apply andb_prop in Hb as [Hc _]. apply negb_true_iff in Hc.
  simpl in Hs. rewrite Hc in Hs. exact Hs.
Qed.

Lemma strip_decomp (s : string) :
  exists pre post, s = pre +:+ Str.strip s +:+ post /\
                   all_space pre = true /\ all_space post = true.
Proof.
  destruct (lstrip_decomp s) as [pre [E1 H1]].
  destruct (rstrip_decomp (Str.lstrip s)) as [post [E2 H2]].
  exists pre, post. unfold Str.strip. rewrite <- E2. auto.
Qed.

Lemma digit_not_space (c : ascii) : Str.is_digit c = true -> Str.is_space c = false.
Proof.
  unfold Str.is_digit, Str.is_space. intros H.
  apply andb_prop in H as [H1 H2].
  apply Nat.leb_le in H1. apply Nat.leb_le in H2.
  apply orb_false_iff. split.
  - apply Nat.eqb_neq. lia.
  - apply andb_false_iff. right. apply Nat.leb_gt. lia.
Qed.

Lemma digits_no_space (s : string) : Str.all_digits s = true -> no_space s = true.
Proof.
  induction s as [|c s IH]; simpl; [reflexivity|].
  intros H. apply andb_prop in H as [Hc Hs].
  rewrite (digit_not_space c Hc), (IH Hs). reflexivity.
Qed.

(** ** [int] and [float] on text *)

Lemma split_sign_spec (s body : string) (neg : bool) :
  Str.split_sign s = (neg, body) ->
  (s = "-" +:+ body /\ neg = true) \/
  (s = "+" +:+ body /\ neg = false) \/
  (s = body /\ neg = false /\
   forall c r, s = String c r -> c <> "-"%char /\ c <> "+"%char).
Proof.
  destruct s as [|c r]; simpl.
  - intros [= <- <-]. right. right. repeat split; discriminate.
  - destruct (Ascii.eqb c "-") eqn:Hm.
    { apply Ascii.eqb_eq in Hm. subst c. intros [= <- <-]. left. auto. }
    destruct (Ascii.eqb c "+") eqn:Hp.
    { apply Ascii.eqb_eq in Hp. subst c. intros [= <- <-]. right. left. auto. }
    intros [= <- <-]. right. right.
    split; [reflexivity|]. split; [reflexivity|].
    intros c' r' [= <- <-]. split; intros ->; discriminate.
Qed.

Lemma split_sign_digits (ds : string) :
  ds <> "" -> Str.all_digits ds = true -> Str.split_sign ds = (false, ds).
Proof.
  destruct ds as [|c r]; [congruence|]. intros _ H. simpl in H.
  apply andb_prop in H as [Hc _]. simpl.
  destruct (Ascii.eqb c "-") eqn:Hm.
  { apply Ascii.eqb_eq in Hm. subst c. discriminate Hc. }
  destruct (Ascii.eqb c "+") eqn:Hp.
  { apply Ascii.eqb_eq in Hp. subst c. discriminate Hc. }
  reflexivity.
Qed.

Lemma py_int_raises (t : string) (e : exn) :
  py_int t = Raise e -> e = ValueError.
Proof.
  unfold py_int. destruct (Str.split_sign (Str.strip t)) as [neg body].
  destruct (Str.is_empty body || negb (Str.all_digits body)); congruence.
Qed.

Lemma py_float_raises (t : string) (e : exn) :
  py_float t = Raise e -> e = ValueError.
Proof.
  unfold py_float. destruct (Str.split_sign (Str.strip t)) as [neg body].
  repeat match goal with
         | |- context [if ?b then _ else _] => destruct b
         | |- context [let '(_, _) := ?p in _] => destruct p
         | |- context [match ?s with EmptyString => _ | String _ _ => _ end] =>
             destruct s
         end; congruence.
Qed.

Lemma py_int_literal (t : string) (z : Z) :
  py_int t = Ok z <-> int_literal t z.
Proof.
  unfold py_int. split.
  - destruct (Str.split_sign (Str.strip t)) as [neg body] eqn:Hs.
    destruct (Str.is_empty body || negb (Str.all_digits body)) eqn:Hb;
      [discriminate|].
    apply orb_false_iff in Hb as [Hne Hd]. apply negb_false_iff in Hd.
    assert (Hbody : body <> "") by (destruct body; [discriminate Hne|discriminate]).
    intros [= <-].
    destruct (strip_decomp t) as [pre [post [Et [Hpre Hpost]]]].
    apply split_sign_spec in Hs as [[E ->]|[[E ->]|[E [-> _]]]].
    + exists pre, "-", body, post. rewrite E, str_app_assoc in Et. auto 10.
    + exists pre, "+", body, post. rewrite E, str_app_assoc in Et. auto 10.
    + exists pre, "", body, post. rewrite E in Et. auto 10.
  - intros [pre [sign [ds [post [Et [Hpre [Hpost [Hne [Hd Hz]]]]]]]]].
    assert (Hstrip : Str.strip t = sign +:+ ds).
    { rewrite Et, <- (str_app_assoc sign ds post).
      apply strip_around; auto.
      - destruct Hz as [[-> _]|[[-> _]|[-> _]]];
          [|rewrite str_app_cons; simpl..]; rewrite ?str_app_nil_l;
          now apply digits_no_space.
      - destruct Hz as [[-> _]|[[-> _]|[-> _]]]; [exact Hne|discriminate..]. }
    rewrite Hstrip.
    assert (Hempty : Str.is_empty ds = false) by (destruct ds; [congruence|reflexivity]).
    destruct Hz as [[-> ->]|[[-> ->]|[-> ->]]].
    + rewrite str_app_nil_l, split_sign_digits by assumption.
      cbv beta iota. now rewrite Hempty, Hd.
    + change (Str.split_sign ("+" +:+ ds)) with (false, ds).
      cbv beta iota. now rewrite Hempty, Hd.
    + change (Str.split_sign ("-" +:+ ds)) with (true, ds).
      cbv beta iota. now rewrite Hempty, Hd.
Qed.

Lemma re_int_literal (t : string) :
  re_int t = true -> exists z, int_literal t z.
Proof.
  destruct t as [|c r]; [discriminate|]. simpl.
  destruct (Ascii.eqb c "-") eqn:Hm.
  - apply Ascii.eqb_eq in Hm. subst c. intros H.
    apply andb_prop in H as [Hne Hd]. apply negb_true_iff in Hne.
    exists (- Str.digits_val 0 r), "", "-", r, "".
    rewrite str_app_nil_r.
    assert (r <> "") by (destruct r; [discriminate Hne|discriminate]).
    auto 10.
  - intros Hd. exists (Str.digits_val 0 (String c r)), "", "", (String c r), "".
    rewrite str_app_nil_r.
    assert (String c r <> "") by discriminate.
    auto 10.
Qed.

Lemma number_cases (t : string) :
  _number t =
  match py_int t with
  | Ok z => Ok (VInt z)
  | Raise _ =>
      match py_float t with
      | Ok f => Ok (VFloat f)
      | Raise _ => Ok (VStr t)
      end
  end.
Proof.
  unfold _number.
  destruct (py_int t) as [z|e] eqn:Hi; [reflexivity|].
  apply py_int_raises in Hi. subst e. simpl.
  destruct (py_float t) as [f|e] eqn:Hf; [reflexivity|].
  apply py_float_raises in Hf. subst e. reflexivity.
Qed.

(** C4 (amended). [_number] never raises and returns exactly one of an
    integer, a float or the text it was given.  It returns an integer
    exactly when the token is, between optional white space, an optional
    sign [+] or [-] followed by one or more digits (every token matching
    [^-?\d+$] is of that form); otherwise a float when [float()] accepts
    the token; otherwise the token unchanged. *)
Theorem number_total_classified (t : string) :
  ((exists z, int_literal t z /\ _number t = Ok (VInt z)) \/
   ((forall z, ~ int_literal t z) /\
    exists f, py_float t = Ok f /\ _number t = Ok (VFloat f)) \/
   ((forall z, ~ int_literal t z) /\ (forall f, py_float t <> Ok f) /\
    _number t = Ok (VStr t))) /\
  (forall z, _number t = Ok (VInt z) <-> int_literal t z) /\
  (re_int t = true -> exists z, _number t = Ok (VInt z)).
Proof.
  rewrite number_cases.
  destruct (py_int t) as [z|e] eqn:Hi.
  - apply py_int_literal in Hi. split; [left; eauto|]. split; [|eauto].
    intros z'. rewrite <- py_int_literal. split.
    + intros [= <-]. now apply py_int_literal.
    + intros H. apply py_int_literal in Hi. congruence.
  - assert (Hno : forall z, ~ int_literal t z).
    { intros z Hz. apply py_int_literal in Hz. congruence. }
    split; [|split].
    + right. destruct (py_float t) as [f|e'] eqn:Hf.
      * left. eauto.
      * right. repeat split; auto; congruence.
    + intros z. split.
      * destruct (py_float t); discriminate.
      * intros Hz. destruct (Hno z Hz).
    + intros Hre. apply re_int_literal in Hre as [z Hz]. destruct (Hno z Hz).
Qed.

(** C4 as stated fails: "+5" does not match [^-?\d+$], yet [_number]
    returns the integer 5 for it. *)
Lemma number_plus_sign :
  ~ (forall t, (exists z, _number t = Ok (VInt z)) <-> re_int t = true).
Proof.
  intros H. destruct (H "+5") as [H1 _].
  assert (E : re_int "+5" = true) by (apply H1; exists 5; reflexivity).
  discriminate E.
Qed.

(** ** The per-core fan-out of [cpustats] *)

Lemma number_coerced (t : string) : _number t = Ok (coerced t).
Proof.
  unfold coerced. rewrite number_cases.
  destruct (py_int t); [reflexivity|]. destruct (py_float t); reflexivity.
Qed.

Lemma core_key_inj (i j : nat) : core_key i = core_key j -> i = j.
Proof.
  unfold core_key. intros H. apply String.app_inj in H.
  now apply pretty_nat_inj in H.
Qed.

Lemma slice_five (cpus : list string) (i : nat) :
  ((i + 1) * 5 <= List.length cpus)%nat ->
  py_slice cpus (i * 5) ((i + 1) * 5) =
  [tok cpus (5 * i); tok cpus (5 * i + 1); tok cpus (5 * i + 2);
   tok cpus (5 * i + 3); tok cpus (5 * i + 4)].
Proof.
  intros Hlen. unfold py_slice, tok.
  replace ((i + 1) * 5 - i * 5)%nat with 5%nat by lia.
  assert (Hd : forall k, (k < 5)%nat ->
             exists x, cpus !! (5 * i + k)%nat = Some x /\
                       drop (i * 5) cpus !! k = Some x).
  { intros k Hk. destruct (lookup_lt_is_Some_2 cpus (5 * i + k)%nat) as [x Hx];
      [lia|]. exists x. split; [exact Hx|].
    rewrite lookup_drop. rewrite <- Hx. f_equal. lia. }
  destruct (Hd 0%nat) as [x0 [E0 D0]]; [lia|].
  destruct (Hd 1%nat) as [x1 [E1 D1]]; [lia|].
  destruct (Hd 2%nat) as [x2 [E2 D2]]; [lia|].
  destruct (Hd 3%nat) as [x3 [E3 D3]]; [lia|].
  destruct (Hd 4%nat) as [x4 [E4 D4]]; [lia|].
  rewrite Nat.add_0_r in E0. rewrite E0, E1, E2, E3, E4. simpl.
  destruct (drop (i * 5) cpus) as [|y0 [|y1 [|y2 [|y3 [|y4 r]]]]];
    simpl in *; try discriminate.
  rewrite take_0. congruence.
Qed.

Lemma core_step (cpus : list string) (ret : gmap string value) (i : nat) :
  ((i + 1) * 5 <= List.length cpus)%nat ->
  cpustats_core cpus ret i = Ok (<[core_key i := core_record cpus i]> ret).
Proof.
  intros Hlen. unfold cpustats_core. rewrite slice_five by exact Hlen.
  unfold _cputime_star, _cputime. rewrite !number_coerced. reflexivity.
Qed.

Lemma cores_loop (cpus : list string) (len : nat) :
  forall (start : nat) (ret : gmap string value),
    ((start + len) * 5 <= List.length cpus)%nat ->
    exists ret',
      for_in (cpustats_core cpus) (seq start len) ret = Ok ret' /\
      (forall i, (start <= i < start + len)%nat ->
                 ret' !! core_key i = Some (core_record cpus i)) /\
      (forall k, (forall i, (start <= i < start + len)%nat -> k <> core_key i) ->
                 ret' !! k = ret !! k).
Proof.
  induction len as [|len IH]; intros start ret Hlen.
  - exists ret. simpl. repeat split; auto. intros i Hi. lia.
  - simpl seq. simpl for_in. rewrite core_step by lia. simpl.
    destruct (IH (S start) (<[core_key start := core_record cpus start]> ret))
      as [ret' [Hrun [Hin Hout]]]; [lia|].
    exists ret'. split; [exact Hrun|]. split.
    + intros i Hi. destruct (decide (i = start)) as [->|Hne].
      * rewrite Hout.
        -- apply lookup_insert_eq.
        -- intros j Hj E. apply core_key_inj in E. lia.
      * apply Hin. lia.
    + intros k Hk. rewrite Hout.
      * apply lookup_insert_ne. intros E. apply (Hk start); [lia|auto].
      * intros i Hi. apply Hk. lia.
Qed.

(** C7. The 15-token string "100 1 2 3 4  200 5 6 7 8  300 9 10 11 12"
    fans out into exactly the three records cpu0, cpu1 and cpu2, with user
    fields 100, 200 and 300 and no further record.  In general the loop
    succeeds on every token list, writes one record per core for
    [len(cpus) / 5] cores (floor division), core [i] taking tokens
    [5i .. 5i+4] as user, nice, system, irq, idle, and leaves every other
    key as it was. *)
Theorem cpustats_cores_fan_out :
  (cpustats_cores (Str.split cores_sample) ∅
   = Ok (<[core_key 0 := core_record (Str.split cores_sample) 0]>
        (<[core_key 1 := core_record (Str.split cores_sample) 1]>
        (<[core_key 2 := core_record (Str.split cores_sample) 2]> ∅))) /\
   core_key 0 = "cpu0" /\ core_key 1 = "cpu1" /\ core_key 2 = "cpu2" /\
   item2 (cpustats cpu_host) "cpu0" "user" = Some (VInt 100) /\
   item2 (cpustats cpu_host) "cpu1" "user" = Some (VInt 200) /\
   item2 (cpustats cpu_host) "cpu2" "user" = Some (VInt 300) /\
   item2 (cpustats cpu_host) "cpu3" "user" = None) /\
  (forall (cpus : list string) (ret : gmap string value),
      exists ret',
        cpustats_cores cpus ret = Ok ret' /\
        (forall i, (i < List.length cpus / 5)%nat ->
                   ret' !! core_key i = Some (core_record cpus i)) /\
        (forall k, (forall i, (i < List.length cpus / 5)%nat -> k <> core_key i) ->
                   ret' !! k = ret !! k)).
Proof.
  split.
  - repeat split; vm_compute; reflexivity.
  - intros cpus ret. unfold cpustats_cores.
    destruct (cores_loop cpus (List.length cpus / 5) 0 ret)
      as [ret' [Hrun [Hin Hout]]].
    { pose proof (Nat.Div0.mul_div_le (List.length cpus) 5). lia. }
    exists ret'. split; [exact Hrun|]. split.
    + intros i Hi. apply Hin. lia.
    + intros k Hk. apply Hout. intros i Hi. apply Hk. lia.
Qed.

(** ** The process counters of [cpustats] *)

Lemma py_get_tok (l : list string) (i : nat) (x : string) :
  py_get l (Z.of_nat i) = Ok x -> tok l i = x /\ (i < List.length l)%nat.
Proof.
  unfold py_get, tok.
  destruct (Z.of_nat i <? 0) eqn:Hneg; [apply Z.ltb_lt in Hneg; lia|].
  destruct ((Z.of_nat i <? 0) || (Z.of_nat (List.length l) <=? Z.of_nat i)) eqn:Hb;
    [discriminate|].
  rewrite Nat2Z.id. destruct (l !! i) as [y|] eqn:Hy; [|discriminate].
  intros [= <-]. split; [reflexivity|]. now apply lookup_lt_Some in Hy.
Qed.

Lemma py_get_in_range (l : list string) (i : nat) :
  (i < List.length l)%nat -> py_get l (Z.of_nat i) = Ok (tok l i).
Proof.
  intros Hi. unfold py_get, tok.
  destruct (Z.of_nat i <? 0) eqn:Hneg; [apply Z.ltb_lt in Hneg; lia|].
  rewrite Hneg. simpl.
  destruct (Z.of_nat (List.length l) <=? Z.of_nat i) eqn:Hb;
    [apply Z.leb_le in Hb; lia|].
  rewrite Nat2Z.id.
  destruct (lookup_lt_is_Some_2 l i Hi) as [x Hx]. now rewrite Hx.
Qed.

Lemma py_get_out_of_range {A} (l : list A) (i : nat) :
  (List.length l <= i)%nat -> py_get l (Z.of_nat i) = Raise IndexError.
Proof.
  intros Hi. unfold py_get.
  destruct (Z.of_nat i <? 0) eqn:Hneg; [apply Z.ltb_lt in Hneg; lia|].
  rewrite Hneg. simpl.
  destruct (Z.of_nat (List.length l) <=? Z.of_nat i) eqn:Hb; [reflexivity|].
  apply Z.leb_gt in Hb. lia.
Qed.

Lemma ps_row_kthread (c : ProcCounts) (l : string) :
  py_get (Str.split l) 4 = Ok "0" -> ps_row c l = Ok c.
Proof. intros H. unfold ps_row. rewrite H. reflexivity. Qed.

Lemma ps_row_counted (c : ProcCounts) (l vsz stat : string) :
  py_get (Str.split l) 4 = Ok vsz -> vsz <> "0" ->
  py_get (Str.split l) 7 = Ok stat ->
  ps_row c l = Ok (counted c stat).
Proof.
  intros H4 Hne H7. unfold ps_row. rewrite H4. simpl.
  apply String.eqb_neq in Hne. rewrite Hne, H7. simpl. unfold counted.
  destruct (Str.contains "D" stat), (Str.contains "R" stat);
    f_equal; f_equal; lia.
Qed.

Lemma ps_row_wide (c : ProcCounts) (l : string) :
  (8 <= List.length (Str.split l))%nat ->
  ps_row c l = Ok (if is_kthread l then c
                   else counted c (tok (Str.split l) 7)).
Proof.
  intros Hlen. unfold is_kthread.
  destruct (String.eqb (tok (Str.split l) 4) "0") eqn:Hk.
  - apply String.eqb_eq in Hk. apply ps_row_kthread.
    change 4 with (Z.of_nat 4). rewrite py_get_in_range by lia. now rewrite Hk.
  - apply String.eqb_neq in Hk.
    apply (ps_row_counted c l (tok (Str.split l) 4)); auto.
    + change 4 with (Z.of_nat 4). apply py_get_in_range. lia.
    + change 7 with (Z.of_nat 7). apply py_get_in_range. lia.
Qed.

Lemma ps_rows_totals (rows : list string) :
  Forall (fun l => (8 <= List.length (Str.split l))%nat) rows ->
  forall c,
    for_in ps_row rows c =
    Ok {| processes := processes c + count_rows is_process rows;
          procs_blocked := procs_blocked c + count_rows is_blocked rows;
          procs_running := procs_running c + count_rows is_running rows |}.
Proof.
  unfold count_rows.
  induction 1 as [|l rows Hl _ IH]; intros c.
  - simpl. destruct c. simpl. f_equal. f_equal; lia.
  - simpl for_in. rewrite ps_row_wide by exact Hl. simpl.
    assert (Ep : is_process l = negb (is_kthread l)) by reflexivity.
    assert (Eb : is_blocked l
                 = negb (is_kthread l) && Str.contains "D" (tok (Str.split l) 7))
      by reflexivity.
    assert (Er : is_running l
                 = negb (is_kthread l) && Str.contains "R" (tok (Str.split l) 7))
      by reflexivity.
    rewrite Ep, Eb, Er.
    destruct (is_kthread l); simpl.
    + apply IH.
    + rewrite IH. unfold counted. simpl.
      destruct (Str.contains "D" (tok (Str.split l) 7)),
               (Str.contains "R" (tok (Str.split l) 7)); simpl;
        f_equal; f_equal; lia.
Qed.

(** C8 (amended). A row whose fifth field is '0' leaves all three counters
    as they are.  Every other row that has an eighth field adds one to
    [processes], adds one to [procs_blocked] exactly when that field
    contains 'D', and adds one to [procs_running] exactly when it contains
    'R'; the two tests are independent.  Over a listing whose rows all have
    at least eight fields the three totals are the numbers of such rows. *)
Theorem ps_row_counters (c : ProcCounts) :
  (forall l, py_get (Str.split l) 4 = Ok "0" -> ps_row c l = Ok c) /\
  (forall l vsz stat,
      py_get (Str.split l) 4 = Ok vsz -> vsz <> "0" ->
      py_get (Str.split l) 7 = Ok stat ->
      exists c',
        ps_row c l = Ok c' /\
        processes c' = processes c + 1 /\
        (Str.contains "D" stat = true -> procs_blocked c' = procs_blocked c + 1) /\
        (Str.contains "D" stat = false -> procs_blocked c' = procs_blocked c) /\
        (Str.contains "R" stat = true -> procs_running c' = procs_running c + 1) /\
        (Str.contains "R" stat = false -> procs_running c' = procs_running c)) /\
  (forall text,
      Forall (fun l => (8 <= List.length (Str.split l))%nat)
             (Str.splitlines text) ->
      cpustats_procs text =
      Ok {| processes := count_rows is_process (Str.splitlines text);
            procs_blocked := count_rows is_blocked (Str.splitlines text);
            procs_running := count_rows is_running (Str.splitlines text) |}).
Proof.
  split; [|split].
  - intros l. apply ps_row_kthread.
  - intros l vsz stat H4 Hne H7. exists (counted c stat).
    split; [now apply (ps_row_counted c l vsz stat)|].
    unfold counted. simpl.
    repeat split; try reflexivity; intros ->; lia.
  - intros text Hrows. unfold cpustats_procs.
    rewrite ps_rows_totals by exact Hrows. reflexivity.
Qed.

(** The totals at a listing with one kernel thread, one blocked, one
    running and one sleeping process. *)
Lemma ps_row_counters_witness :
  cpustats_procs ps_sample =
  Ok {| processes := 3; procs_blocked := 1; procs_running := 1 |}.
Proof.
  destruct (ps_row_counters no_procs) as [_ [_ H]].
  rewrite (H ps_sample).
  - vm_compute. reflexivity.
  - vm_compute. repeat constructor.
Defined.

(** C8 as stated fails twice: a row whose state field is "DR" adds one to
    [procs_running] as well as to [procs_blocked], and a row of five fields
    whose fifth is not '0' raises [IndexError] and counts nothing. *)
Lemma ps_row_blocked_and_running :
  ~ (forall c l stat c',
        py_get (Str.split l) 7 = Ok stat -> Str.contains "D" stat = true ->
        ps_row c l = Ok c' ->
        procs_blocked c' = procs_blocked c + 1 /\
        procs_running c' = procs_running c) /\
  ~ (forall c l vsz,
        py_get (Str.split l) 4 = Ok vsz -> vsz <> "0" ->
        exists c', ps_row c l = Ok c' /\ processes c' = processes c + 1).
Proof.
  split.
  - intros H.
    destruct (H no_procs ps_row_both "DR"
                {| processes := 1; procs_blocked := 1; procs_running := 1 |})
      as [_ Hr]; try reflexivity.
    discriminate Hr.
  - intros H.
    destruct (H no_procs ps_row_short "100") as [c' [Hc' _]];
      [reflexivity|discriminate|].
    vm_compute in Hc'. discriminate Hc'.
Qed.

(** ** Decimal printing and [int] *)

(** Decimal printing, as [str(n)] does it, is read back by [int]. *)

Lemma pretty_N_char_digit (y : N) : Str.is_digit (pretty_N_char y) = true.
Proof. unfold pretty_N_char. repeat case_match; reflexivity. Qed.

Lemma pretty_N_char_val (y : N) :
  (y < 10)%N -> Str.digit_val (pretty_N_char y) = Z.of_N y.
Proof.
  intros Hy.
  assert (y = 0 \/ y = 1 \/ y = 2 \/ y = 3 \/ y = 4 \/ y = 5 \/ y = 6 \/
          y = 7 \/ y = 8 \/ y = 9)%N as H by lia.
  repeat (destruct H as [->|H]; [reflexivity|]). subst y. reflexivity.
Qed.

Lemma digits_val_acc (s : string) :
  forall acc,
    Str.digits_val acc s
    = acc * 10 ^ Z.of_nat (String.length s) + Str.digits_val 0 s.
Proof.
  induction s as [|c s IH]; intros acc; simpl String.length; simpl Str.digits_val.
  - change (10 ^ Z.of_nat 0) with 1. lia.
  - rewrite (IH (10 * acc + Str.digit_val c)), (IH (10 * 0 + Str.digit_val c)).
    rewrite Nat2Z.inj_succ, Z.pow_succ_r by lia. lia.
Qed.

Lemma pretty_N_go_digits (x : N) :
  forall s, Str.all_digits s = true ->
    Str.all_digits (pretty_N_go x s) = true /\
    Str.digits_val 0 (pretty_N_go x s)
    = Z.of_N x * 10 ^ Z.of_nat (String.length s) + Str.digits_val 0 s.
Proof.
  induction (N.lt_wf_0 x) as [x _ IH]. intros s Hs.
  destruct (N.eq_dec x 0%N) as [->|Hx].
  - rewrite pretty_N_go_0. split; [exact Hs|]. lia.
  - rewrite pretty_N_go_step by lia.
    destruct (IH (x `div` 10)%N) with
      (s := String (pretty_N_char (x `mod` 10)) s) as [Hd Hv].
    + apply N.div_lt; lia.
    + simpl. now rewrite pretty_N_char_digit, Hs.
    + split; [exact Hd|]. rewrite Hv. simpl String.length.
      simpl Str.digits_val. rewrite digits_val_acc.
      rewrite pretty_N_char_val by (apply N.mod_lt; lia).
      rewrite Nat2Z.inj_succ, Z.pow_succ_r by lia.
      pose proof (N.div_mod x 10 ltac:(lia)) as Hdm.
      assert (Z.of_N x = 10 * Z.of_N (x `div` 10) + Z.of_N (x `mod` 10)) by lia.
      lia.
Qed.

Lemma pretty_N_digits (x : N) :
  Str.all_digits (pretty x) = true /\ pretty x <> "" /\
  Str.digits_val 0 (pretty x) = Z.of_N x.
Proof.
  unfold pretty, pretty_N. destruct (decide (x = 0%N)) as [->|Hx].
  - repeat split. discriminate.
  - destruct (pretty_N_go_digits x "") as [Hd Hv]; [reflexivity|].
    split; [exact Hd|]. simpl in Hv. rewrite Z.mul_1_r, Z.add_0_r in Hv.
    split; [|exact Hv].
    intros E. rewrite E in Hv. simpl in Hv. lia.
Qed.

Lemma py_int_digits (ds : string) :
  ds <> "" -> Str.all_digits ds = true ->
  py_int ds = Ok (Str.digits_val 0 ds) /\
  py_int ("-" +:+ ds) = Ok (- Str.digits_val 0 ds).
Proof.
  intros Hne Hd. split; apply py_int_literal.
  - exists "", "", ds, "". rewrite str_app_nil_r. auto 10.
  - exists "", "-", ds, "". rewrite str_app_nil_r. auto 10.
Qed.

Lemma py_int_pretty (z : Z) : py_int (pretty z) = Ok z.
Proof.
  unfold pretty, pretty_Z. destruct z as [|p|p].
  - reflexivity.
  - destruct (pretty_N_digits (Npos p)) as [Hd [Hne Hv]].
    change (pretty p) with (pretty (Npos p)).
    destruct (py_int_digits _ Hne Hd) as [E _]. rewrite E, Hv. reflexivity.
  - destruct (pretty_N_digits (Npos p)) as [Hd [Hne Hv]].
    change (pretty p) with (pretty (Npos p)).
    destruct (py_int_digits _ Hne Hd) as [_ E]. rewrite E, Hv. reflexivity.
Qed.


(** ** The round trip of [diskstats] *)



Lemma py_get_nonneg (l : list string) (i : Z) :
  0 <= i < Z.of_nat (List.length l) -> py_get l i = Ok (tok l (Z.to_nat i)).
Proof.
  intros Hi. rewrite <- (Z2Nat.id i) at 1 by lia.
  apply py_get_in_range. lia.
Qed.

Lemma field_nonneg (comps : list string) (i : Z) :
  0 <= i < Z.of_nat (List.length comps) ->
  field comps i = Ok (coerced (tok comps (Z.to_nat i))).
Proof.
  intros Hi. unfold field. rewrite py_get_nonneg by exact Hi. simpl.
  apply number_coerced.
Qed.






(** ** The interrupt table of [cpustats] *)

Lemma py_set_in_range {A} (l : list A) (i : Z) (v : A) :
  0 <= i < Z.of_nat (List.length l) ->
  py_set l i v = Ok (<[Z.to_nat i := v]> l).
Proof.
  intros Hi. unfold py_set.
  destruct (i <? 0) eqn:Hneg; [apply Z.ltb_lt in Hneg; lia|].
  rewrite Hneg. simpl.
  destruct (Z.of_nat (List.length l) <=? i) eqn:Hb; [|reflexivity].
  apply Z.leb_le in Hb. lia.
Qed.

Lemma padded_length (irqs : list value) (n : Z) :
  Z.of_nat (List.length (padded irqs n)) = Z.max (Z.of_nat (List.length irqs)) n.
Proof. unfold padded. rewrite length_app, length_replicate. lia. Qed.

Lemma padded_at (irqs : list value) (n : Z) (j : nat) :
  irq_at (padded irqs n) j = irq_at irqs j.
Proof.
  unfold irq_at, padded.
  destruct (decide (j < List.length irqs)%nat) as [Hj|Hj].
  - now rewrite lookup_app_l.
  - rewrite lookup_app_r by lia.
    rewrite (lookup_ge_None_2 irqs j) by lia. simpl.
    destruct (replicate _ _ !! _) as [x|] eqn:Hx; [|reflexivity].
    apply lookup_replicate in Hx as [-> _]. reflexivity.
Qed.

Lemma irq_line_step (irqs : list value) (l total : string) (n : Z) :
  irq_fields l = Some (n, total) -> 1 <= n ->
  irq_line irqs l
  = Ok (<[Z.to_nat (n - 1) := coerced total]> (padded irqs n)).
Proof.
  unfold irq_fields, irq_line. intros Hf Hn.
  destruct (Str.split l) as [|irqname [|dev [|tot [|rate [|]]]]];
    try discriminate Hf.
  destruct (py_get (Str.split_on ":" irqname) 0) as [name|e];
    unfold mbind, result_bind in Hf |- *; cbv beta iota in Hf |- *;
    [|discriminate Hf].
  destruct (_number (Str.drop 3 name)) as [[m| | | |]|e]; try discriminate Hf.
  injection Hf as -> ->.
  rewrite number_coerced.
  assert (E : (if Z.of_nat (List.length irqs) <? n
               then (irqs ++ replicate (Z.to_nat (n - Z.of_nat (List.length irqs)))
                               (VInt 0))%list
               else irqs) = padded irqs n).
  { unfold padded. destruct (Z.of_nat (List.length irqs) <? n) eqn:Hc;
      [reflexivity|]. apply Z.ltb_ge in Hc.
    replace (Z.to_nat (n - Z.of_nat (List.length irqs))) with 0%nat by lia.
    simpl. now rewrite app_nil_r. }
  rewrite E. apply py_set_in_range.
  pose proof (padded_length irqs n). lia.
Qed.

Lemma intr_line_irq (intr : gmap string value) (irqs : list value)
    (l total : string) (n : Z) :
  Str.startswith "irq" l = true ->
  irq_fields l = Some (n, total) -> 1 <= n ->
  intr_line (intr, irqs) l
  = Ok (intr, <[Z.to_nat (n - 1) := coerced total]> (padded irqs n)).
Proof.
  intros Hirq Hf Hn. unfold intr_line. rewrite Hirq.
  now rewrite (irq_line_step irqs l total n Hf Hn).
Qed.

Lemma intr_line_total (intr : gmap string value) (irqs : list value)
    (l : string) :
  Str.startswith "irq" l = false -> Str.startswith "Total" l = true ->
  (2 <= List.length (Str.split l))%nat ->
  intr_line (intr, irqs) l
  = Ok (<["total" := coerced (tok (Str.split l) 1)]> intr, irqs).
Proof.
  intros Hirq Htot Hlen. unfold intr_line. rewrite Hirq, Htot.
  now rewrite field_nonneg by lia.
Qed.

Lemma intr_line_other (st : gmap string value * list value) (l : string) :
  Str.startswith "irq" l = false -> Str.startswith "Total" l = false ->
  intr_line st l = Ok st.
Proof.
  intros Hirq Htot. unfold intr_line. destruct st. now rewrite Hirq, Htot.
Qed.

Lemma irq_numbers_cons (l : string) (lines : list string) :
  irq_numbers (l :: lines)
  = match (if Str.startswith "irq" l then fst <$> irq_fields l else None) with
    | Some n => n :: irq_numbers lines
    | None => irq_numbers lines
    end.
Proof. reflexivity. Qed.

Lemma intr_loop (lines : list string) :
  Forall (fun l => intr_line_ok l = true) lines ->
  forall (intr : gmap string value) (irqs : list value),
    intr !! "irqs" = None ->
    exists intr' irqs',
      for_in intr_line lines (intr, irqs) = Ok (intr', irqs') /\
      intr' !! "irqs" = None /\
      Z.of_nat (List.length irqs')
      = Z.max (Z.of_nat (List.length irqs)) (foldr Z.max 0 (irq_numbers lines)) /\
      (forall k, 1 <= k -> k ∉ irq_numbers lines ->
                 irq_at irqs' (Z.to_nat (k - 1)) = irq_at irqs (Z.to_nat (k - 1))).
Proof.
  induction 1 as [|l lines Hl _ IH]; intros intr irqs Hfree.
  - exists intr, irqs. simpl. repeat split; auto. lia.
  - unfold intr_line_ok in Hl.
    change (for_in intr_line (l :: lines) (intr, irqs))
      with (intr_line (intr, irqs) l ≫= for_in intr_line lines).
    rewrite irq_numbers_cons.
    destruct (Str.startswith "irq" l) eqn:Hirq.
    + destruct (irq_fields l) as [[n total]|] eqn:Hf; [|discriminate Hl].
      apply Z.leb_le in Hl.
      rewrite (intr_line_irq intr irqs l total n Hirq Hf Hl).
      destruct (IH intr (<[Z.to_nat (n - 1) := coerced total]> (padded irqs n))
                  Hfree) as [intr' [irqs' [Hrun [Hfree' [Hlen Hat]]]]].
      exists intr', irqs'. split; [exact Hrun|]. split; [exact Hfree'|].
      rewrite length_insert, padded_length in Hlen.
      split; [simpl; lia|].
      intros k Hk Hnot. simpl in Hnot.
      apply not_elem_of_cons in Hnot as [Hkn Hnot].
      rewrite (Hat k Hk Hnot). unfold irq_at at 1.
      rewrite list_lookup_insert_ne by lia.
      apply padded_at.
    + destruct (Str.startswith "Total" l) eqn:Htot.
      * apply Nat.leb_le in Hl.
        rewrite (intr_line_total intr irqs l Hirq Htot Hl).
        apply IH. rewrite lookup_insert_ne; [exact Hfree|discriminate].
      * rewrite (intr_line_other _ l Hirq Htot). apply IH, Hfree.
Qed.

Lemma foldr_max_nonneg (l : list Z) : 0 <= foldr Z.max 0 l.
Proof. induction l as [|x l IH]; simpl; lia. Qed.

(** C6 (amended). When every [irq] line of the interrupt listing has
    exactly four fields and a positive IRQ number (and every [Total] line
    has its second field), [cpustats] produces the [irqs] list; its length
    is the highest IRQ number that appears, and every position whose IRQ
    number does not appear holds zero. *)
Theorem cpustats_intr_gap_filled (text : string) :
  Forall (fun l => intr_line_ok l = true) (Str.splitlines text) ->
  exists intr irqs,
    cpustats_intr text = Ok intr /\
    intr !! "irqs" = Some (VList irqs) /\
    Z.of_nat (List.length irqs) = highest_irq (Str.splitlines text) /\
    (forall k, 1 <= k <= Z.of_nat (List.length irqs) ->
               k ∉ irq_numbers (Str.splitlines text) ->
               irqs !! Z.to_nat (k - 1) = Some (VInt 0)).
Proof.
  intros Hok.
  destruct (intr_loop _ Hok ∅ []) as [intr [irqs [Hrun [Hfree [Hlen Hat]]]]];
    [reflexivity|].
  exists (<["irqs" := VList irqs]> intr), irqs.
  unfold cpustats_intr. rewrite Hrun.
  split; [reflexivity|]. split; [apply lookup_insert_eq|].
  split.
  - rewrite Hlen. unfold highest_irq. change (Z.of_nat (List.length [])) with 0.
    pose proof (foldr_max_nonneg (irq_numbers (Str.splitlines text))).
    lia.
  - intros k Hk Hnot. specialize (Hat k ltac:(lia) Hnot).
    unfold irq_at in Hat. rewrite lookup_nil in Hat.
    destruct (lookup_lt_is_Some_2 irqs (Z.to_nat (k - 1))) as [x Hx]; [lia|].
    rewrite Hx in Hat. simpl in Hat. now rewrite Hx, Hat.
Qed.

(** The table of a listing with IRQ 1 and IRQ 4: positions 2 and 3 are
    filled with zeros. *)
Lemma cpustats_intr_gap_filled_witness :
  exists intr,
    cpustats_intr intr_sample = Ok intr /\
    intr !! "irqs" = Some (VList [VInt 8; VInt 0; VInt 0; VInt 120]) /\
    highest_irq (Str.splitlines intr_sample) = 4.
Proof.
  destruct (cpustats_intr_gap_filled intr_sample) as [intr [irqs [Hrun _]]].
  - let lines := eval vm_compute in (Str.splitlines intr_sample) in
    change (Str.splitlines intr_sample) with lines.
    repeat (constructor; [vm_compute; reflexivity|]). constructor.
  - exists intr. split; [exact Hrun|].
    assert (E : cpustats_intr intr_sample
                = Ok (<["irqs" := VList [VInt 8; VInt 0; VInt 0; VInt 120]]>
                     (<["total" := VInt 90128]> ∅)))
      by (vm_compute; reflexivity).
    rewrite E in Hrun. injection Hrun as <-.
    split; vm_compute; reflexivity.
Defined.

(** C6 as stated fails: an [irq] line naming two devices has five fields,
    the unpacking into four names raises [ValueError], and no list is
    produced. *)
Lemma cpustats_intr_shared_irq_raises :
  cpustats_intr intr_shared = Raise ValueError /\
  ~ (forall text, exists intr irqs,
        cpustats_intr text = Ok intr /\
        intr !! "irqs" = Some (VList irqs) /\
        Z.of_nat (List.length irqs) = highest_irq (Str.splitlines text) /\
        (forall k, 1 <= k <= Z.of_nat (List.length irqs) ->
                   k ∉ irq_numbers (Str.splitlines text) ->
                   irqs !! Z.to_nat (k - 1) = Some (VInt 0))).
Proof.
  assert (E : cpustats_intr intr_shared = Raise ValueError)
    by (vm_compute; reflexivity).
  split; [exact E|].
  intros H. destruct (H intr_shared) as [intr [irqs [Hrun _]]].
  rewrite E in Hrun. discriminate Hrun.
Qed.

(** ** The selection of [diskusage] *)

Lemma bind_Ok {A B} (a : A) (f : A -> result B) : Ok a ≫= f = f a.
Proof. reflexivity. Qed.

Lemma glob_star_matches (s : string) : glob_matches "*" s = true.
Proof.
  unfold glob_matches.
  change (Re.compile_atoms (Fnmatch.translate "*")) with (Ok [RStar]).
  induction s as [|c s IH]; [reflexivity|].
  simpl in *. exact IH.
Qed.

Lemma glob_ext_matches (s : string) :
  glob_matches "ext?" s = true <->
  exists c, s = String "e" (String "x" (String "t" (String c ""))).
Proof.
  unfold glob_matches.
  change (Re.compile_atoms (Fnmatch.translate "ext?"))
    with (Ok [RLit "e"; RLit "x"; RLit "t"; RAny]).
  split.
  - destruct s as [|c0 [|c1 [|c2 [|c3 [|c4 r]]]]]; simpl;
      rewrite ?andb_false_r; try discriminate.
    intros H. apply andb_prop in H as [H0 H].
    apply andb_prop in H as [H1 H]. apply andb_prop in H as [H2 _].
    apply Ascii.eqb_eq in H0, H1, H2. subst. eauto.
  - intros [c ->]. reflexivity.
Qed.

Lemma diskusage_args_foldl (args : list string) :
  forall st : gset string * gset string,
    (forall q, q ∈ (foldl diskusage_arg st args).1 <->
               q ∈ st.1 \/ (q ∈ args /\ Str.startswith "/" q = true)) /\
    (forall q, q ∈ (foldl diskusage_arg st args).2 <->
               q ∈ st.2 \/ (q ∈ args /\ Str.startswith "/" q = false)).
Proof.
  induction args as [|a args IH]; intros st.
  - cbn [foldl]. split; intros q; rewrite elem_of_nil; tauto.
  - cbn [foldl]. destruct (IH (diskusage_arg st a)) as [H1 H2].
    split; intros q; [rewrite H1|rewrite H2]; clear H1 H2 IH;
      rewrite elem_of_cons; unfold diskusage_arg;
      destruct (Str.startswith "/" a) eqn:Ha; cbn [fst snd];
      rewrite ?elem_of_union, ?elem_of_singleton;
      naive_solver congruence.
Qed.

Lemma filter_elem (f : string -> bool) (l : list string) (x : string) :
  x ∈ List.filter f l <-> x ∈ l /\ f x = true.
Proof. rewrite !list_elem_of_In. apply filter_In. Qed.

Lemma diskusage_args_spec (args : list string) :
  (forall q, q ∈ (diskusage_args args).1 <-> q ∈ arg_paths args) /\
  (forall q, q ∈ (diskusage_args args).2 <-> q ∈ arg_globs args).
Proof.
  destruct args as [|a args].
  - simpl. split; intros q.
    + rewrite elem_of_nil. set_solver.
    + rewrite elem_of_singleton, list_elem_of_singleton. tauto.
  - unfold diskusage_args, arg_paths, arg_globs.
    destruct (diskusage_args_foldl (a :: args) (∅, ∅)) as [H1 H2].
    split; intros q; [rewrite H1|rewrite H2]; rewrite filter_elem; simpl;
      rewrite ?negb_true_iff; set_solver.
Qed.

Lemma existsb_elem (f : string -> bool) (l : list string) :
  existsb f l = true <-> exists x, x ∈ l /\ f x = true.
Proof.
  rewrite existsb_exists. split; intros [x [H1 H2]]; exists x;
    (split; [now apply list_elem_of_In|exact H2]).
Qed.

Lemma compile_loop (pats : list string) :
  Forall (fun pat => glob_ok pat = true) pats ->
  forall acc,
    exists progs,
      for_in compile_pattern pats acc = Ok (acc ++ progs)%list /\
      forall s, existsb (fun prog => Re.matches prog s) progs
                = existsb (fun pat => glob_matches pat s) pats.
Proof.
  induction 1 as [|pat pats Hpat _ IH]; intros acc.
  - exists []. rewrite app_nil_r. auto.
  - unfold glob_ok in Hpat. apply andb_prop in Hpat as [_ Hc].
    cbn [for_in].
    destruct (Re.compile_atoms (Fnmatch.translate pat)) as [prog|e] eqn:Hp;
      [|discriminate Hc].
    assert (Hstep : compile_pattern acc pat = Ok (acc ++ [prog])%list)
      by (unfold compile_pattern; now rewrite Hp).
    rewrite Hstep, bind_Ok.
    destruct (IH (acc ++ [prog])%list) as [progs [Hrun Hm]].
    exists (prog :: progs). rewrite Hrun, <- app_assoc. split; [reflexivity|].
    intros s. cbn [existsb]. unfold glob_matches at 1. rewrite Hp, Hm.
    reflexivity.
Qed.

Lemma compile_fstypes_ok (braced : list string -> result (string -> bool))
    (fstypes : gset string) :
  (forall pat, pat ∈ fstypes -> glob_ok pat = true) ->
  exists p,
    compile_fstypes braced fstypes = Ok p /\
    forall s, p s = true <->
              exists pat, pat ∈ fstypes /\ glob_matches pat s = true.
Proof.
  intros Hok. unfold compile_fstypes.
  assert (Hall : Forall (fun pat => glob_ok pat = true) (elements fstypes)).
  { apply Forall_forall. intros pat Hin. apply Hok. now apply elem_of_elements. }
  assert (Hb : existsb has_brace (elements fstypes) = false).
  { apply not_true_is_false. intros H. apply existsb_elem in H as [x [Hx Hbr]].
    rewrite Forall_forall in Hall. specialize (Hall x Hx).
    unfold glob_ok in Hall. rewrite Hbr in Hall. discriminate Hall. }
  rewrite Hb.
  destruct (compile_loop _ Hall []) as [progs [Hrun Hm]].
  rewrite Hrun, bind_Ok. eexists. split; [reflexivity|].
  intros s. cbv beta. rewrite Hm, existsb_elem.
  split; intros [pat [Hin Hmatch]]; exists pat;
    (split; [now apply elem_of_elements|exact Hmatch]).
Qed.

Lemma mounts_fold (p : string -> bool) (lines : list string) :
  forall (sel : gset string) (q : string),
    q ∈ foldl (mounts_line p) sel lines <->
    q ∈ sel \/
    exists line dev fstype rest,
      line ∈ lines /\ Str.split line = dev :: q :: fstype :: rest /\
      p fstype = true.
Proof.
  induction lines as [|l lines IH]; intros sel q.
  - simpl. split; [auto|]. intros [H|[line [? [? [? [H _]]]]]]; [exact H|].
    now apply elem_of_nil in H.
  - simpl foldl. rewrite IH. clear IH. unfold mounts_line.
    split.
    + intros [H|[line [dev [fstype [rest [Hin [Hs Hp]]]]]]].
      * destruct (Str.split l) as [|d [|m [|f r]]] eqn:Hl; auto.
        destruct (p f) eqn:Hpf; auto.
        apply elem_of_union in H as [H|H]; auto.
        apply elem_of_singleton in H. subst m.
        right. exists l, d, f, r. split; [left|auto].
      * right. exists line, dev, fstype, rest. split; [now right|auto].
    + intros [H|[line [dev [fstype [rest [Hin [Hs Hp]]]]]]].
      * left. destruct (Str.split l) as [|d [|m [|f r]]]; auto.
        destruct (p f); auto. apply elem_of_union. now right.
      * apply elem_of_cons in Hin as [->|Hin].
        -- left. rewrite Hs, Hp. apply elem_of_union. left.
           now apply elem_of_singleton.
        -- right. exists line, dev, fstype, rest. auto.
Qed.

Lemma diskusage_selected_spec (braced : list string -> result (string -> bool))
    (args : list string) (mounts : string) :
  Forall (fun pat => glob_ok pat = true) (arg_globs args) ->
  exists sel,
    diskusage_selected braced args mounts = Ok sel /\
    forall q, q ∈ sel <->
              q ∈ arg_paths args \/
              exists pat fstype,
                pat ∈ arg_globs args /\ mount_entry mounts q fstype /\
                glob_matches pat fstype = true.
Proof.
  intros Hok. unfold diskusage_selected.
  destruct (diskusage_args_spec args) as [Hp Hg].
  destruct (diskusage_args args) as [selected fstypes]. simpl in Hp, Hg.
  destruct (0 <? size fstypes)%nat eqn:Hsize.
  - destruct (compile_fstypes_ok braced fstypes) as [p [Hc Hm]].
    { intros pat Hin. rewrite Forall_forall in Hok. apply Hok. now apply Hg. }
    rewrite Hc, bind_Ok. eexists. split; [reflexivity|].
    intros q. rewrite mounts_fold, Hp.
    split; intros [H|H]; auto; right.
    + destruct H as [line [dev [fstype [rest [Hin [Hs Hpf]]]]]].
      apply Hm in Hpf as [pat [Hpat Hmatch]].
      exists pat, fstype. split; [now apply Hg|]. split; [|exact Hmatch].
      exists line, dev, rest. auto.
    + destruct H as [pat [fstype [Hpat [[line [dev [rest [Hin Hs]]]] Hmatch]]]].
      exists line, dev, fstype, rest. split; [exact Hin|]. split; [exact Hs|].
      apply Hm. exists pat. split; [now apply Hg|exact Hmatch].
  - apply Nat.ltb_ge in Hsize.
    assert (Hempty : fstypes = ∅).
    { apply leibniz_equiv, size_empty_inv. lia. }
    exists selected. split; [reflexivity|].
    intros q. rewrite Hp. split; [auto|].
    intros [H|[pat [_ [Hpat _]]]]; [exact H|].
    apply Hg in Hpat. rewrite Hempty in Hpat. set_solver.
Qed.

Lemma query_loop (host : World) (paths : list string) :
  (forall p, p ∈ paths -> is_ok (statvfs host p)) ->
  forall ret : gmap string value,
    exists ret',
      for_in (diskusage_query host) paths ret = Ok ret' /\
      dom ret' = dom ret ∪ list_to_set paths.
Proof.
  induction paths as [|p paths IH]; intros Hok ret.
  - exists ret. split; [reflexivity|]. set_solver.
  - cbn [for_in]. destruct (Hok p) as [[[blksz bavail] blocks] Hp]; [left|].
    assert (Hstep : diskusage_query host ret p
                    = Ok (<[p := py_dict [("available", VInt (bavail * blksz));
                                          ("total", VInt (blocks * blksz))]]> ret))
      by (unfold diskusage_query; now rewrite Hp).
    rewrite Hstep, bind_Ok.
    destruct (IH (fun q Hq => Hok q (list_elem_of_further _ _ _ Hq))
                (<[p := py_dict [("available", VInt (bavail * blksz));
                                 ("total", VInt (blocks * blksz))]]> ret))
      as [ret' [Hrun Hdom]].
    exists ret'. split; [exact Hrun|].
    rewrite Hdom, dom_insert_L. set_solver.
Qed.

(** C9 (amended). For arguments whose fstype patterns compile (no brace,
    every bracket expression a valid set), the selected set is the union of
    the explicit path arguments (those beginning with '/') and the mount
    points of the table whose fstype matches one of the patterns.  Without
    arguments it is every mount point of the table; with the single
    argument "ext?" it is exactly the mount points whose fstype is "ext"
    followed by one character.  When the mount table exists and [statvfs]
    answers for the selected paths, the result has exactly those keys. *)
Theorem diskusage_selection (braced : list string -> result (string -> bool))
    (args : list string) (mounts : string) :
  Forall (fun pat => glob_ok pat = true) (arg_globs args) ->
  exists sel,
    diskusage_selected braced args mounts = Ok sel /\
    (forall q, q ∈ sel <->
               (q ∈ args /\ Str.startswith "/" q = true) \/
               exists pat fstype,
                 pat ∈ arg_globs args /\ mount_entry mounts q fstype /\
                 glob_matches pat fstype = true) /\
    (args = [] ->
     forall q, q ∈ sel <-> exists fstype, mount_entry mounts q fstype) /\
    (args = ["ext?"] ->
     forall q, q ∈ sel <->
               exists c, mount_entry mounts q
                           (String "e" (String "x" (String "t" (String c ""))))) /\
    (forall host,
        read_file host "/proc/mounts" = Some mounts ->
        (forall p, p ∈ sel -> is_ok (statvfs host p)) ->
        exists ret, diskusage braced host args = Ok (VDict ret) /\ dom ret = sel).
Proof.
  intros Hok.
  destruct (diskusage_selected_spec braced args mounts Hok) as [sel [Hrun Hsel]].
  exists sel. split; [exact Hrun|]. split; [|split; [|split]].
  - intros q. rewrite Hsel. unfold arg_paths. rewrite filter_elem. tauto.
  - intros -> q. rewrite Hsel. unfold arg_paths, arg_globs. cbn [List.filter].
    split.
    + intros [H|[pat [fstype [_ [He _]]]]]; [now apply elem_of_nil in H|eauto].
    + intros [fstype He]. right. exists "*", fstype.
      split; [apply list_elem_of_here|]. split; [exact He|].
      apply glob_star_matches.
  - intros -> q. rewrite Hsel.
    change (arg_paths ["ext?"]) with (@nil string).
    change (arg_globs ["ext?"]) with ["ext?"].
    split.
    + intros [H|[pat [fstype [Hpat [He Hm]]]]]; [now apply elem_of_nil in H|].
      apply list_elem_of_singleton in Hpat. subst pat.
      apply glob_ext_matches in Hm as [c ->]. eauto.
    + intros [c He]. right.
      exists "ext?", (String "e" (String "x" (String "t" (String c "")))).
      split; [apply list_elem_of_here|]. split; [exact He|].
      apply glob_ext_matches. eauto.
  - intros host Hfile Hstat. unfold diskusage. rewrite Hfile, Hrun, bind_Ok.
    destruct (query_loop host (elements sel)) with (ret := (∅ : gmap string value))
      as [ret [Hq Hdom]].
    { intros p Hp. apply Hstat. now apply elem_of_elements. }
    exists ret. rewrite Hq. split; [reflexivity|].
    rewrite Hdom, dom_empty_L, list_to_set_elements_L. set_solver.
Qed.

(** The selection on a table with ext2, ext3, ext4, ext, extfs and proc
    entries. *)
Lemma diskusage_selection_witness :
  diskusage_selected no_braced ["ext?"] mounts_sample
  = Ok ({["/"]} ∪ {["/home"]} ∪ {["/old"]}) /\
  diskusage_selected no_braced [] mounts_sample
  = Ok ({["/"]} ∪ {["/home"]} ∪ {["/old"]} ∪ {["/odd"]} ∪ {["/alien"]}
        ∪ {["/proc"]}) /\
  (glob_matches "ext?" "ext2" = true /\ glob_matches "ext?" "ext3" = true /\
   glob_matches "ext?" "ext4" = true /\ glob_matches "ext?" "ext" = false /\
   glob_matches "ext?" "extfs" = false) /\
  (forall q, q ∈ ({["/"]} ∪ {["/home"]} ∪ {["/old"]} : gset string) <->
             exists c, mount_entry mounts_sample q
                         (String "e" (String "x" (String "t" (String c ""))))).
Proof.
  assert (E : diskusage_selected no_braced ["ext?"] mounts_sample
              = Ok ({["/"]} ∪ {["/home"]} ∪ {["/old"]}))
    by (vm_compute; reflexivity).
  split; [exact E|]. split; [vm_compute; reflexivity|].
  split; [repeat split; vm_compute; reflexivity|].
  destruct (diskusage_selection no_braced ["ext?"] mounts_sample)
    as [sel [Hrun [_ [_ [Hext _]]]]].
  - repeat constructor.
  - rewrite E in Hrun. injection Hrun as <-. apply Hext. reflexivity.
Defined.

(** C9 as stated fails: for the pattern "[z-a]" the translated expression
    has a reversed range, [re.compile] raises, and no set is selected. *)
Lemma diskusage_bad_range_raises :
  (forall braced mounts,
      diskusage_selected braced ["[z-a]"] mounts = Raise ReError) /\
  ~ (forall braced args mounts,
        exists sel,
          diskusage_selected braced args mounts = Ok sel /\
          forall q, q ∈ sel <->
                    (q ∈ args /\ Str.startswith "/" q = true) \/
                    exists pat fstype,
                      pat ∈ arg_globs args /\ mount_entry mounts q fstype /\
                      glob_matches pat fstype = true).
Proof.
  assert (E : forall braced mounts,
             diskusage_selected braced ["[z-a]"] mounts = Raise ReError).
  { intros braced mounts. vm_compute. reflexivity. }
  split; [exact E|].
  intros H. destruct (H no_braced ["[z-a]"] "") as [sel [Hrun _]].
  rewrite E in Hrun. discriminate Hrun.
Qed.

(** ** Lines with too few fields *)

Lemma bind_Raise {A B} (e : exn) (f : A -> result B) : Raise e ≫= f = Raise e.
Proof. reflexivity. Qed.

Lemma py_get_beyond {A} (l : list A) (i : Z) :
  Z.of_nat (List.length l) <= i -> py_get l i = Raise IndexError.
Proof.
  intros Hi. unfold py_get.
  destruct (i <? 0) eqn:Hneg; [apply Z.ltb_lt in Hneg; lia|].
  rewrite Hneg. cbn [orb].
  destruct (Z.of_nat (List.length l) <=? i) eqn:Hb; [reflexivity|].
  apply Z.leb_gt in Hb. lia.
Qed.

Lemma field_beyond (comps : list string) (i : Z) :
  Z.of_nat (List.length comps) <= i -> field comps i = Raise IndexError.
Proof. intros Hi. unfold field. now rewrite py_get_beyond. Qed.

(** A loop whose body either succeeds or raises [e], line by line. *)
Lemma for_in_outcome {S A} (body : S -> A -> result S) (good : A -> bool)
    (e : exn) :
  (forall s x, good x = true -> is_ok (body s x)) ->
  (forall s x, good x = false -> body s x = Raise e) ->
  forall xs s,
    if forallb good xs then is_ok (for_in body xs s)
    else for_in body xs s = Raise e.
Proof.
  intros Hgood Hbad. induction xs as [|x xs IH]; intros s.
  - cbn. now exists s.
  - cbn [forallb for_in]. destruct (good x) eqn:Hx.
    + destruct (Hgood s x Hx) as [s' Hs']. rewrite Hs', bind_Ok. cbn [andb].
      apply IH.
    + rewrite (Hbad s x Hx). reflexivity.
Qed.

Lemma fmap_outcome {A B} (f : A -> B) (ok : bool) (r : result A) :
  completes_or_raises ok r -> completes_or_raises ok (f <$> r).
Proof.
  unfold completes_or_raises. destruct ok.
  - intros [a ->]. now exists (f a).
  - intros ->. reflexivity.
Qed.

(** ** [vmstats] *)

Lemma vmstats_line_outcome (ret : gmap string value) (l : string) :
  completes_or_raises (vmstats_line_ok l) (vmstats_line ret l).
Proof.
  unfold completes_or_raises, vmstats_line_ok, vmstats_line.
  destruct (Str.is_empty l); cbn [orb]; [now eexists|].
  destruct (2 <=? List.length (Str.split l))%nat eqn:Hlen.
  - apply Nat.leb_le in Hlen.
    rewrite field_nonneg, bind_Ok, py_get_nonneg, bind_Ok by lia. now eexists.
  - apply Nat.leb_gt in Hlen. now rewrite field_beyond by lia.
Qed.

Lemma vmstats_outcome (text : string) :
  completes_or_raises (forallb vmstats_line_ok (Str.split_on NL text))
                      (vmstats_text text).
Proof.
  unfold vmstats_text. apply fmap_outcome. unfold completes_or_raises.
  apply for_in_outcome.
  - intros s x Hx. pose proof (vmstats_line_outcome s x) as H.
    now rewrite Hx in H.
  - intros s x Hx. pose proof (vmstats_line_outcome s x) as H.
    now rewrite Hx in H.
Qed.

(** ** [w] *)

Lemma w_row_outcome (users : list value) (l : string) :
  completes_or_raises (w_row_ok l) (w_row users l).
Proof.
  unfold completes_or_raises, w_row_ok, w_row.
  destruct (Str.is_empty l); cbn [orb]; [now eexists|].
  destruct (6 <=? List.length (Str.split l))%nat eqn:Hlen.
  - apply Nat.leb_le in Hlen.
    rewrite !py_get_nonneg by lia. rewrite !bind_Ok. now eexists.
  - apply Nat.leb_gt in Hlen.
    destruct (Str.split l) as [|a [|b [|c [|d [|e [|f r]]]]]];
      try reflexivity.
    simpl in Hlen. lia.
Qed.

Lemma w_outcome (text : string) :
  completes_or_raises (forallb w_row_ok (Str.split_on NL text)) (w_text text).
Proof.
  unfold w_text. apply fmap_outcome. unfold completes_or_raises.
  apply for_in_outcome.
  - intros s x Hx. pose proof (w_row_outcome s x) as H. now rewrite Hx in H.
  - intros s x Hx. pose proof (w_row_outcome s x) as H. now rewrite Hx in H.
Qed.

(** ** [procs] *)

Lemma split_on_go_cons (sep : ascii) (s : string) :
  forall tok, exists first rest, Str.split_on_go sep tok s = first :: rest.
Proof.
  induction s as [|c s IH]; intros tok; cbn [Str.split_on_go].
  - eauto.
  - destruct (Ascii.eqb c sep); eauto.
Qed.

Lemma procs_line_outcome (uind pind cind : nat) (ret : gmap string value)
    (l : string) :
  completes_or_raises (procs_line_ok uind pind l)
                      (procs_line uind pind cind ret l).
Proof.
  unfold completes_or_raises, procs_line_ok, procs_line.
  destruct (Str.is_empty l); cbn [orb]; [now eexists|].
  destruct (uind <? List.length (Str.split l))%nat eqn:Hu; cbn [andb].
  - apply Nat.ltb_lt in Hu.
    rewrite (py_get_in_range (Str.split l) uind Hu), bind_Ok.
    destruct (pind <? List.length (Str.split l))%nat eqn:Hp.
    + apply Nat.ltb_lt in Hp.
      rewrite (py_get_in_range (Str.split l) pind Hp), bind_Ok.
      now eexists.
    + apply Nat.ltb_ge in Hp.
      now rewrite (py_get_beyond (Str.split l) (Z.of_nat pind)) by lia.
  - apply Nat.ltb_ge in Hu.
    now rewrite (py_get_beyond (Str.split l) (Z.of_nat uind)) by lia.
Qed.

Lemma procs_outcome (text : string) :
  exists first plines,
    Str.split_on NL text = first :: plines /\
    completes_or_raises
      (forallb (procs_line_ok (column "USER" "UID" (Str.split first))
                              (column "PID" "PID" (Str.split first))) plines)
      (procs_text text).
Proof.
  destruct (split_on_go_cons NL text "") as [first [plines Hs]].
  exists first, plines. split; [exact Hs|].
  unfold procs_text. unfold Str.split_on. rewrite Hs.
  apply fmap_outcome. unfold completes_or_raises.
  apply for_in_outcome.
  - intros s x Hx.
    pose proof (procs_line_outcome
                  (column "USER" "UID" (Str.split first))
                  (column "PID" "PID" (Str.split first))
                  (column "COMMAND" "CMD" (Str.split first)) s x) as H.
    now rewrite Hx in H.
  - intros s x Hx.
    pose proof (procs_line_outcome
                  (column "USER" "UID" (Str.split first))
                  (column "PID" "PID" (Str.split first))
                  (column "COMMAND" "CMD" (Str.split first)) s x) as H.
    now rewrite Hx in H.
Qed.

(** ** [netstats] *)

Lemma for_in_outcome_in {S A} (body : S -> A -> result S) (good : A -> bool)
    (e : exn) (xs : list A) :
  (forall s x, x ∈ xs -> good x = true -> is_ok (body s x)) ->
  (forall s x, x ∈ xs -> good x = false -> body s x = Raise e) ->
  forall s,
    if forallb good xs then is_ok (for_in body xs s)
    else for_in body xs s = Raise e.
Proof.
  induction xs as [|x xs IH]; intros Hgood Hbad s.
  - cbn. now exists s.
  - cbn [forallb for_in]. destruct (good x) eqn:Hx.
    + destruct (Hgood s x (list_elem_of_here _ _) Hx) as [s' Hs'].
      rewrite Hs', bind_Ok. cbn [andb].
      apply IH; intros s0 y Hy; [apply Hgood|apply Hbad];
        now apply list_elem_of_further.
    + rewrite (Hbad s x (list_elem_of_here _ _) Hx). reflexivity.
Qed.

Lemma forallb_field_ok (comps : list string) (n : nat) :
  comps <> [] ->
  forallb (field_ok comps) (seq 0 n) = (n <=? List.length comps)%nat.
Proof.
  intros Hne.
  assert (Hpos : (1 <= List.length comps)%nat)
    by (destruct comps; [congruence|simpl; lia]).
  induction n as [|n IH].
  - reflexivity.
  - rewrite seq_S, forallb_app, IH. cbn [forallb Nat.add]. unfold field_ok.
    destruct (n <=? List.length comps)%nat eqn:H1;
      destruct (n <? 1)%nat eqn:H2;
      destruct (n <? List.length comps)%nat eqn:H3;
      destruct (S n <=? List.length comps)%nat eqn:H4;
      try reflexivity;
      rewrite ?Nat.leb_le, ?Nat.leb_gt, ?Nat.ltb_lt, ?Nat.ltb_ge in *; lia.
Qed.

Lemma netstats_field_outcome (headers comps : list string)
    (row : gmap string value) (i : nat) :
  (i < List.length headers)%nat ->
  completes_or_raises (field_ok comps i) (netstats_field headers comps row i).
Proof.
  intros Hi. unfold completes_or_raises, field_ok, netstats_field.
  destruct (i <? 1)%nat; cbn [orb]; [now eexists|].
  destruct (i <? List.length comps)%nat eqn:Hc.
  - apply Nat.ltb_lt in Hc.
    rewrite field_nonneg, bind_Ok by lia.
    rewrite py_get_in_range, bind_Ok by exact Hi. now eexists.
  - apply Nat.ltb_ge in Hc. now rewrite field_beyond by lia.
Qed.

Lemma netstats_row_outcome (headers comps : list string)
    (row : gmap string value) :
  comps <> [] ->
  completes_or_raises
    (List.length headers - 1 <=? List.length comps)%nat
    (for_in (netstats_field headers comps)
            (seq 0 (List.length headers - 1)) row).
Proof.
  intros Hne. rewrite <- (forallb_field_ok comps _ Hne).
  unfold completes_or_raises. apply for_in_outcome_in.
  - intros s i Hi Hgood. apply elem_of_seq in Hi.
    pose proof (netstats_field_outcome headers comps s i ltac:(lia)) as H.
    now rewrite Hgood in H.
  - intros s i Hi Hbad. apply elem_of_seq in Hi.
    pose proof (netstats_field_outcome headers comps s i ltac:(lia)) as H.
    now rewrite Hbad in H.
Qed.

Lemma netstats_line_step (ret : gmap string value) (headers : list string)
    (l : string) :
  headers <> [] ->
  netstats_line (ret, headers) l =
  if Str.is_empty l then Ok (ret, headers)
  else
    match Str.split l with
    | [] => Raise IndexError
    | c0 :: more =>
        if String.eqb c0 (tok headers 0) then
          row ← for_in (netstats_field headers (c0 :: more))
                       (seq 0 (List.length headers - 1)) ∅;
          Ok (<[Str.remove_char ":" (tok headers 0) := VDict row]> ret, headers)
        else Ok (ret, c0 :: more)
    end.
Proof.
  intros Hh. unfold netstats_line.
  destruct (Str.is_empty l); [reflexivity|].
  destruct (Str.split l) as [|c0 more]; [reflexivity|].
  assert (H0 : py_get (c0 :: more) 0 = Ok c0) by reflexivity.
  assert (Hh0 : py_get headers 0 = Ok (tok headers 0)).
  { change 0 with (Z.of_nat 0). apply py_get_in_range.
    destruct headers; [congruence|simpl; lia]. }
  rewrite H0, bind_Ok, Hh0, bind_Ok. reflexivity.
Qed.

Lemma netstats_loop (lines : list string) :
  forall (ret : gmap string value) (headers : list string),
    headers <> [] ->
    completes_or_raises (netstats_lines_ok headers lines)
                        (for_in netstats_line lines (ret, headers)).
Proof.
  induction lines as [|l lines IH]; intros ret headers Hh.
  - cbn. now eexists.
  - cbn [netstats_lines_ok for_in]. rewrite netstats_line_step by exact Hh.
    destruct (Str.is_empty l).
    { rewrite bind_Ok. now apply IH. }
    destruct (Str.split l) as [|c0 more] eqn:Hs.
    { reflexivity. }
    destruct (String.eqb c0 (tok headers 0)).
    + pose proof (netstats_row_outcome headers (c0 :: more) ∅
                    ltac:(discriminate)) as Hrow.
      unfold completes_or_raises in Hrow.
      destruct (List.length headers - 1 <=? List.length (c0 :: more))%nat.
      * destruct Hrow as [row Hrow]. rewrite Hrow, !bind_Ok. cbn [andb].
        now apply IH.
      * rewrite Hrow. reflexivity.
    + rewrite bind_Ok. apply IH. discriminate.
Qed.

Lemma netstats_outcome (text : string) :
  completes_or_raises (netstats_lines_ok [""] (Str.split_on NL text))
                      (netstats_text text).
Proof.
  unfold netstats_text.
  pose proof (netstats_loop (Str.split_on NL text) ∅ [""] ltac:(discriminate))
    as H.
  unfold completes_or_raises in *.
  destruct (netstats_lines_ok [""] (Str.split_on NL text)).
  - destruct H as [[ret headers] ->]. rewrite bind_Ok. now eexists.
  - rewrite H. reflexivity.
Qed.

(** ** Truncated lines *)

(** C5 (amended). [procs], [vmstats], [netstats] and [w] skip a line only
    when it is empty.  Each of them completes when every non-empty line has
    the fields the parser indexes (procs: more fields than the PID and USER
    column indices; vmstats: two; w: six; netstats: a first token, and on a
    data line as many tokens as its header has, minus one), and raises
    [IndexError] to the caller as soon as one line has fewer. *)
Theorem truncated_lines_outcome (text : string) :
  completes_or_raises (forallb vmstats_line_ok (Str.split_on NL text))
                      (vmstats_text text) /\
  completes_or_raises (forallb w_row_ok (Str.split_on NL text))
                      (w_text text) /\
  (exists first plines,
      Str.split_on NL text = first :: plines /\
      completes_or_raises
        (forallb (procs_line_ok (column "USER" "UID" (Str.split first))
                                (column "PID" "PID" (Str.split first))) plines)
        (procs_text text)) /\
  completes_or_raises (netstats_lines_ok [""] (Str.split_on NL text))
                      (netstats_text text).
Proof.
  split; [apply vmstats_outcome|].
  split; [apply w_outcome|].
  split; [apply procs_outcome|apply netstats_outcome].
Qed.

(** An empty line is skipped and a line with more fields than needed is
    read. *)
Example vmstats_ragged :
  vmstats_text ragged_sample
  = Ok (VDict (<["nr_free_pages" := VInt 1]> (<["nr_dirty" := VInt 7]> ∅))).
Proof. vm_compute. reflexivity. Qed.

(** C5 as stated fails: in each of the four parsers a line with too few
    fields is not skipped, it raises [IndexError] and the operation
    aborts. *)
Lemma truncated_line_raises :
  vmstats_text vmstats_short = Raise IndexError /\
  w_text w_short = Raise IndexError /\
  procs_text procs_short = Raise IndexError /\
  netstats_text netstats_short = Raise IndexError /\
  ~ (forall text,
        is_ok (vmstats_text text) /\ is_ok (w_text text) /\
        is_ok (procs_text text) /\ is_ok (netstats_text text)).
Proof.
  assert (E : vmstats_text vmstats_short = Raise IndexError)
    by (vm_compute; reflexivity).
  split; [exact E|].
  split; [vm_compute; reflexivity|].
  split; [vm_compute; reflexivity|].
  split; [vm_compute; reflexivity|].
  intros H. destruct (H vmstats_short) as [[v Hv] _].
  rewrite E in Hv. discriminate Hv.
Qed.

(** ** Load averages, uptime and pid *)

(** ** [loadavg] *)

(** X1. [loadavg] needs four tokens in the [vm.loadavg] text: with fewer it
    raises [IndexError]; with four or more it returns exactly the three
    entries 1-min, 5-min and 15-min, holding the coerced second, third and
    fourth tokens (the first token, the opening brace, is not read). *)
Theorem loadavg_outcome (host : World) :
  if (4 <=? List.length (loadavg_tokens host))%nat then
    loadavg host
    = Ok (py_dict [("1-min", coerced (tok (loadavg_tokens host) 1));
                   ("5-min", coerced (tok (loadavg_tokens host) 2));
                   ("15-min", coerced (tok (loadavg_tokens host) 3))])
  else loadavg host = Raise IndexError.
Proof.
  unfold loadavg. fold (loadavg_tokens host).
  generalize (loadavg_tokens host). intros toks.
  destruct (4 <=? List.length toks)%nat eqn:Hlen.
  - apply Nat.leb_le in Hlen.
    rewrite (field_nonneg toks 1), bind_Ok by lia.
    rewrite (field_nonneg toks 2), bind_Ok by lia.
    rewrite (field_nonneg toks 3), bind_Ok by lia.
    reflexivity.
  - apply Nat.leb_gt in Hlen.
    destruct (le_lt_dec (List.length toks) 1) as [H1|H1].
    { now rewrite (field_beyond toks 1) by lia. }
    rewrite (field_nonneg toks 1), bind_Ok by lia.
    destruct (le_lt_dec (List.length toks) 2) as [H2|H2].
    { now rewrite (field_beyond toks 2) by lia. }
    rewrite (field_nonneg toks 2), bind_Ok by lia.
    now rewrite (field_beyond toks 3) by lia.
Qed.

Lemma replace_char_twice (a b : ascii) (s : string) :
  a <> b ->
  Str.replace_char a b (Str.replace_char a b s) = Str.replace_char a b s.
Proof.
  intros Hab. induction s as [|c s IH]; [reflexivity|].
  cbn [Str.replace_char]. rewrite IH. f_equal.
  destruct (Ascii.eqb c a) eqn:Hc; [|now rewrite Hc].
  destruct (Ascii.eqb b a) eqn:Hb; [|reflexivity].
  apply Ascii.eqb_eq in Hb. congruence.
Qed.

(** X2. Decimal commas are read as points: two hosts whose [vm.loadavg]
    texts differ only in that one writes [.] where the other writes [,]
    get the same answer from [loadavg]. *)
Theorem loadavg_decimal_comma (h1 h2 : World) :
  sysctl_get h2 "vm.loadavg"
  = Str.replace_char "," "." (sysctl_get h1 "vm.loadavg") ->
  loadavg h2 = loadavg h1.
Proof.
  intros H. unfold loadavg. rewrite H, replace_char_twice; [reflexivity|].
  discriminate.
Qed.

Lemma loadavg_decimal_comma_witness :
  loadavg (host_with_sysctl "vm.loadavg" "{ 0.52 0.48 0.44 }")
  = loadavg (host_with_sysctl "vm.loadavg" "{ 0,52 0,48 0,44 }") /\
  item (match loadavg (host_with_sysctl "vm.loadavg" "{ 0,52 0,48 0,44 }")
        with Ok v => v | Raise _ => VStr "" end) "1-min"
  = Some (VFloat (FDec false 52 (-2))).
Proof.
  split.
  - apply (loadavg_decimal_comma
             (host_with_sysctl "vm.loadavg" "{ 0,52 0,48 0,44 }")
             (host_with_sysctl "vm.loadavg" "{ 0.52 0.48 0.44 }")).
    reflexivity.
  - vm_compute. reflexivity.
Defined.

(** ** [uptime] and [pid] *)

Lemma lstrip_twice (s : string) : Str.lstrip (Str.lstrip s) = Str.lstrip s.
Proof.
  induction s as [|c s IH]; [reflexivity|]. cbn [Str.lstrip].
  destruct (Str.is_space c) eqn:Hc; [exact IH|].
  cbn [Str.lstrip]. now rewrite Hc.
Qed.

Lemma rstrip_cons (c : ascii) (s : string) :
  Str.rstrip (String c s)
  = match Str.rstrip s with
    | EmptyString => if Str.is_space c then "" else String c ""
    | String d r => String c (String d r)
    end.
Proof. reflexivity. Qed.

Lemma rstrip_twice (s : string) : Str.rstrip (Str.rstrip s) = Str.rstrip s.
Proof.
  induction s as [|c s IH]; [reflexivity|]. rewrite rstrip_cons.
  destruct (Str.rstrip s) as [|d r] eqn:Hr.
  - destruct (Str.is_space c) eqn:Hc; [reflexivity|].
    rewrite rstrip_cons. cbn [Str.rstrip]. now rewrite Hc.
  - rewrite rstrip_cons, IH. reflexivity.
Qed.

Lemma lstrip_starts_clean (s : string) : starts_clean (Str.lstrip s) = true.
Proof.
  induction s as [|c s IH]; [reflexivity|]. cbn [Str.lstrip].
  destruct (Str.is_space c) eqn:Hc; [exact IH|]. cbn. now rewrite Hc.
Qed.

Lemma rstrip_starts_clean (s : string) :
  starts_clean s = true -> starts_clean (Str.rstrip s) = true.
Proof.
  destruct s as [|c s]; [reflexivity|]. cbn [starts_clean Str.rstrip].
  intros Hc. destruct (Str.rstrip s).
  - apply negb_true_iff in Hc. rewrite Hc. cbn [starts_clean].
    now rewrite Hc.
  - exact Hc.
Qed.

Lemma starts_clean_lstrip (s : string) :
  starts_clean s = true -> Str.lstrip s = s.
Proof.
  destruct s as [|c s]; [reflexivity|]. cbn [starts_clean Str.lstrip].
  intros Hc. apply negb_true_iff in Hc. now rewrite Hc.
Qed.

Lemma strip_trimmed (s : string) : trimmed_of s (Str.strip s).
Proof.
  unfold trimmed_of. split; [|split].
  - apply starts_clean_lstrip. unfold Str.strip.
    apply rstrip_starts_clean, lstrip_starts_clean.
  - unfold Str.strip. apply rstrip_twice.
  - destruct (strip_decomp s) as [pre [post H]]. eauto.
Qed.

(** X3. [uptime] and [pid] never raise, and what they return is the
    output of their command without its leading and trailing white space
    (for [pid], the empty text when the command gave nothing). *)
Theorem uptime_pid_trimmed (host : World)
    (run_stdout : string -> option string) (sig : string) :
  (exists r, uptime host = Ok (VStr r) /\
             trimmed_of (cmd_run host "uptime") r) /\
  (exists r, pid run_stdout host sig = Ok (VStr r) /\
             trimmed_of (default "" (run_stdout (pid_cmd host sig))) r /\
             (run_stdout (pid_cmd host sig) = None -> r = "")).
Proof.
  split.
  - eexists. split; [reflexivity|]. apply strip_trimmed.
  - eexists. split; [reflexivity|]. split; [apply strip_trimmed|].
    intros ->. reflexivity.
Qed.

(** ** [_number] on printed integers *)

(** X4. Printing an integer and coercing the text gives the integer back:
    [_number(str(z))] is [z], for every integer [z]. *)
Theorem number_reads_printed_integer (z : Z) :
  _number (pretty z) = Ok (VInt z).
Proof. rewrite number_cases, py_int_pretty. reflexivity. Qed.

(** ** Whole listings: vmstats, procs, w and diskstats *)

(** ** Loops that fill a dictionary *)

Lemma for_in_inserts {A} (body : gmap string value -> A -> result (gmap string value))
    (keep : A -> bool) (key : A -> string) (val : A -> value) (xs : list A) :
  (forall ret x, x ∈ xs ->
     body ret x = Ok (if keep x then <[key x := val x]> ret else ret)) ->
  forall ret,
    exists ret',
      for_in body xs ret = Ok ret' /\
      (forall x, last_bound keep key xs x -> ret' !! key x = Some (val x)) /\
      (forall k, never_bound keep key xs k -> ret' !! k = ret !! k).
Proof.
  induction xs as [|x0 xs IH]; intros Hbody ret.
  - exists ret. split; [reflexivity|]. split; [|reflexivity].
    intros x [pre [post [H _]]]. now destruct pre.
  - cbn [for_in]. rewrite (Hbody ret x0 (list_elem_of_here _ _)), bind_Ok.
    destruct (IH (fun r x Hx => Hbody r x (list_elem_of_further _ _ _ Hx))
                (if keep x0 then <[key x0 := val x0]> ret else ret))
      as [ret' [Hrun [Hlast Hnever]]].
    exists ret'. split; [exact Hrun|]. split.
    + intros x [pre [post [Hsplit [Hkeep Hlater]]]].
      destruct pre as [|p pre]; cbn [app] in Hsplit.
      * injection Hsplit as <- <-. rewrite Hnever.
        -- rewrite Hkeep. apply lookup_insert_eq.
        -- intros y Hy Hky. now apply Hlater.
      * injection Hsplit as <- ->. apply Hlast. exists pre, post. auto.
    + intros k Hk. rewrite Hnever.
      * destruct (keep x0) eqn:Hk0; [|reflexivity].
        apply lookup_insert_ne. apply (Hk x0); [left|exact Hk0].
      * intros y Hy. apply Hk. now right.
Qed.

Lemma forallb_elem {A} (f : A -> bool) (xs : list A) (x : A) :
  forallb f xs = true -> x ∈ xs -> f x = true.
Proof.
  intros H Hx. rewrite forallb_forall in H. apply H. now apply list_elem_of_In.
Qed.

(** ** [vmstats] *)

Lemma vmstats_line_insert (ret : gmap string value) (l : string) :
  vmstats_line_ok l = true ->
  vmstats_line ret l
  = Ok (if nonempty l
        then <[tok (Str.split l) 0 := coerced (tok (Str.split l) 1)]> ret
        else ret).
Proof.
  unfold vmstats_line_ok, vmstats_line, nonempty.
  destruct (Str.is_empty l); cbn [orb negb]; [reflexivity|].
  intros Hlen. apply Nat.leb_le in Hlen.
  rewrite (field_nonneg (Str.split l) 1), bind_Ok by lia.
  rewrite (py_get_nonneg (Str.split l) 0), bind_Ok by lia. reflexivity.
Qed.

(** X5. On a text whose non-empty lines all have two fields, [vmstats]
    returns a mapping in which each first field is bound to the coerced
    second field of the last line that starts with it (a later line
    overwrites an earlier one), and nothing else is bound. *)
Theorem vmstats_last_line_wins (text : string) :
  forallb vmstats_line_ok (Str.split_on NL text) = true ->
  exists ret,
    vmstats_text text = Ok (VDict ret) /\
    (forall l, last_bound nonempty (fun l => tok (Str.split l) 0)
                          (Str.split_on NL text) l ->
               ret !! tok (Str.split l) 0
               = Some (coerced (tok (Str.split l) 1))) /\
    (forall k, never_bound nonempty (fun l => tok (Str.split l) 0)
                           (Str.split_on NL text) k ->
               ret !! k = None).
Proof.
  intros Hok.
  destruct (for_in_inserts vmstats_line nonempty
              (fun l => tok (Str.split l) 0)
              (fun l => coerced (tok (Str.split l) 1))
              (Str.split_on NL text)) with (ret := (∅ : gmap string value))
    as [ret [Hrun [Hlast Hnever]]].
  { intros r l Hl. apply vmstats_line_insert. now apply (forallb_elem _ _ _ Hok). }
  exists ret. unfold vmstats_text. rewrite Hrun. split; [reflexivity|].
  split; [exact Hlast|]. intros k Hk. now rewrite Hnever.
Qed.

Lemma vmstats_last_line_wins_witness :
  exists ret,
    vmstats_text vmstats_dup = Ok (VDict ret) /\
    ret !! "pgfault" = Some (VInt 3) /\ ret !! "nr_dirty" = None.
Proof.
  destruct (vmstats_last_line_wins vmstats_dup) as [ret [Hrun [Hlast Hnever]]].
  - vm_compute. reflexivity.
  - exists ret. split; [exact Hrun|]. split.
    + apply (Hlast "pgfault 3").
      exists ["pgfault 1"; ""; "pgfree 2"], []. split; [reflexivity|].
      split; [reflexivity|]. intros y Hy. now apply elem_of_nil in Hy.
    + apply Hnever. intros y Hy _.
      assert (Hin : y ∈ ["pgfault 1"; ""; "pgfree 2"; "pgfault 3"]) by exact Hy.
      clear Hy. rewrite !elem_of_cons, elem_of_nil in Hin.
      destruct Hin as [->|[->|[->|[->|[]]]]]; discriminate.
Defined.

(** ** [procs] *)

Lemma procs_line_insert (uind pind cind : nat) (ret : gmap string value)
    (l : string) :
  procs_line_ok uind pind l = true ->
  procs_line uind pind cind ret l
  = Ok (if nonempty l
        then <[tok (Str.split l) pind := procs_record uind cind l]> ret
        else ret).
Proof.
  unfold procs_line_ok, procs_line, nonempty.
  destruct (Str.is_empty l); cbn [orb negb]; [reflexivity|].
  intros H. apply andb_prop in H as [Hu Hp].
  apply Nat.ltb_lt in Hu, Hp.
  rewrite (py_get_in_range (Str.split l) uind Hu), bind_Ok.
  rewrite (py_get_in_range (Str.split l) pind Hp), bind_Ok. reflexivity.
Qed.

(** X6. [procs] keys its result by the PID column.  When every non-empty
    row after the header has the USER and PID columns, each PID is bound to
    the record of the last row carrying it: the USER column, and the
    fields from the COMMAND column on joined by single spaces.  No other
    key is bound. *)
Theorem procs_keyed_by_pid (text first : string) (plines : list string) :
  Str.split_on NL text = first :: plines ->
  forallb (procs_line_ok (column "USER" "UID" (Str.split first))
                         (column "PID" "PID" (Str.split first))) plines = true ->
  exists ret,
    procs_text text = Ok (VDict ret) /\
    (forall l,
        last_bound nonempty
          (fun l => tok (Str.split l) (column "PID" "PID" (Str.split first)))
          plines l ->
        ret !! tok (Str.split l) (column "PID" "PID" (Str.split first))
        = Some (procs_record (column "USER" "UID" (Str.split first))
                             (column "COMMAND" "CMD" (Str.split first)) l)) /\
    (forall k,
        never_bound nonempty
          (fun l => tok (Str.split l) (column "PID" "PID" (Str.split first)))
          plines k ->
        ret !! k = None).
Proof.
  intros Hs Hok.
  destruct (for_in_inserts
              (procs_line (column "USER" "UID" (Str.split first))
                          (column "PID" "PID" (Str.split first))
                          (column "COMMAND" "CMD" (Str.split first)))
              nonempty
              (fun l => tok (Str.split l) (column "PID" "PID" (Str.split first)))
              (procs_record (column "USER" "UID" (Str.split first))
                            (column "COMMAND" "CMD" (Str.split first)))
              plines) with (ret := (∅ : gmap string value))
    as [ret [Hrun [Hlast Hnever]]].
  { intros r l Hl. apply procs_line_insert. now apply (forallb_elem _ _ _ Hok). }
  exists ret. unfold procs_text. rewrite Hs, Hrun. split; [reflexivity|].
  split; [exact Hlast|]. intros k Hk. now rewrite Hnever.
Qed.

Lemma procs_keyed_by_pid_witness :
  exists ret,
    procs_text procs_dup = Ok (VDict ret) /\
    ret !! "7"
    = Some (py_dict [("user", VStr "bob"); ("cmd", VStr "vim notes.txt")]).
Proof.
  destruct (procs_keyed_by_pid procs_dup "USER PID %CPU COMMAND"
              ["root 1 0.0 /sbin/init -s"; ""; "bob 7 0.1 vim notes.txt"])
    as [ret [Hrun [Hlast _]]].
  - reflexivity.
  - vm_compute. reflexivity.
  - exists ret. split; [exact Hrun|].
    apply (Hlast "bob 7 0.1 vim notes.txt").
    exists ["root 1 0.0 /sbin/init -s"; ""], []. split; [reflexivity|].
    split; [reflexivity|]. intros y Hy. now apply elem_of_nil in Hy.
Defined.

(** ** [w] *)

Lemma for_in_appends {A B} (body : list B -> A -> result (list B))
    (keep : A -> bool) (val : A -> B) (xs : list A) :
  (forall acc x, x ∈ xs ->
     body acc x = Ok (if keep x then (acc ++ [val x])%list else acc)) ->
  forall acc,
    for_in body xs acc = Ok (acc ++ (val <$> List.filter keep xs))%list.
Proof.
  induction xs as [|x xs IH]; intros Hbody acc.
  - cbn. now rewrite app_nil_r.
  - cbn [for_in List.filter].
    rewrite (Hbody acc x (list_elem_of_here _ _)), bind_Ok.
    rewrite IH by (intros a y Hy; apply Hbody; now right).
    destruct (keep x); [|reflexivity].
    now rewrite fmap_cons, <- app_assoc.
Qed.

Lemma w_row_append (users : list value) (l : string) :
  w_row_ok l = true ->
  w_row users l
  = Ok (if nonempty l then (users ++ [w_record l])%list else users).
Proof.
  unfold w_row_ok, w_row, nonempty.
  destruct (Str.is_empty l); cbn [orb negb]; [reflexivity|].
  intros Hlen. apply Nat.leb_le in Hlen.
  rewrite !py_get_nonneg by lia. rewrite !bind_Ok. reflexivity.
Qed.

(** X7. When every non-empty row has six fields, [w] returns one record
    per non-empty row, in the order of the rows; the record holds the first
    six fields under user, tty, login, idle, jcpu and pcpu, and the
    remaining fields joined by single spaces under what. *)
Theorem w_rows_in_order (text : string) :
  forallb w_row_ok (Str.split_on NL text) = true ->
  w_text text
  = Ok (VList (w_record <$> List.filter nonempty (Str.split_on NL text))).
Proof.
  intros Hok. unfold w_text.
  rewrite (for_in_appends w_row nonempty w_record).
  - reflexivity.
  - intros acc l Hl. apply w_row_append. now apply (forallb_elem _ _ _ Hok).
Qed.

Lemma w_rows_in_order_witness :
  w_text w_two
  = Ok (VList [w_record "bob pts/0 10:00 1 2 3 vim a  b";
               w_record "eve pts/1 11:00 - - - -sh"]) /\
  item (w_record "bob pts/0 10:00 1 2 3 vim a  b") "what" = Some (VStr "vim a b").
Proof.
  split.
  - rewrite (w_rows_in_order w_two); [reflexivity|].
    vm_compute. reflexivity.
  - vm_compute. reflexivity.
Defined.

(** ** [diskstats] on a whole table *)

Lemma diskstats_line_insert (ret : gmap string value) (l : string) :
  diskstats_line_ok l = true ->
  diskstats_line ret l
  = Ok (if nonempty l
        then <[tok (Str.split l) 2 := diskstats_record l]> ret
        else ret).
Proof.
  unfold diskstats_line_ok, diskstats_line, nonempty.
  destruct (Str.is_empty l); cbn [orb negb]; [reflexivity|].
  intros Hlen. apply Nat.leb_le in Hlen.
  rewrite !field_nonneg by lia. rewrite py_get_nonneg by lia.
  rewrite !bind_Ok. reflexivity.
Qed.

Lemma diskstats_line_short (ret : gmap string value) (l : string) :
  diskstats_line_ok l = false ->
  diskstats_line ret l = Raise IndexError.
Proof.
  unfold diskstats_line_ok, diskstats_line.
  destruct (Str.is_empty l); cbn [orb]; [discriminate|].
  intros Hlen. apply Nat.leb_gt in Hlen.
  generalize dependent (Str.split l). intros comps Hlen.
  repeat match goal with
         | |- context [field comps ?i ≫= _] =>
             destruct (Z_le_gt_dec (Z.of_nat (List.length comps)) i);
             [now rewrite (field_beyond comps i) by lia
             |rewrite (field_nonneg comps i), bind_Ok by lia]
         end.
  lia.
Qed.

(** X8. [diskstats] takes the fourteen fields of a line for granted: it
    completes when every non-empty line has at least fourteen fields, and
    raises [IndexError] as soon as one has fewer. *)
Theorem diskstats_fixed_width (text : string) :
  completes_or_raises (forallb diskstats_line_ok (Str.split_on NL text))
                      (diskstats_text text).
Proof.
  unfold diskstats_text. apply fmap_outcome. unfold completes_or_raises.
  apply for_in_outcome.
  - intros s l Hl. rewrite diskstats_line_insert by exact Hl. now eexists.
  - intros s l Hl. now apply diskstats_line_short.
Qed.

(** X9. On a table whose non-empty lines all have fourteen fields,
    [diskstats] binds each device name (third field, as written) to the
    record of the last line naming it, and binds nothing else. *)
Theorem diskstats_last_line_wins (text : string) :
  forallb diskstats_line_ok (Str.split_on NL text) = true ->
  exists ret,
    diskstats_text text = Ok (VDict ret) /\
    (forall l, last_bound nonempty (fun l => tok (Str.split l) 2)
                          (Str.split_on NL text) l ->
               ret !! tok (Str.split l) 2 = Some (diskstats_record l)) /\
    (forall k, never_bound nonempty (fun l => tok (Str.split l) 2)
                           (Str.split_on NL text) k ->
               ret !! k = None).
Proof.
  intros Hok.
  destruct (for_in_inserts diskstats_line nonempty
              (fun l => tok (Str.split l) 2) diskstats_record
              (Str.split_on NL text)) with (ret := (∅ : gmap string value))
    as [ret [Hrun [Hlast Hnever]]].
  { intros r l Hl. apply diskstats_line_insert.
    now apply (forallb_elem _ _ _ Hok). }
  exists ret. unfold diskstats_text. rewrite Hrun. split; [reflexivity|].
  split; [exact Hlast|]. intros k Hk. now rewrite Hnever.
Qed.

Lemma diskstats_last_line_wins_witness :
  exists ret,
    diskstats_text diskstats_two = Ok (VDict ret) /\
    (ret !! "sda" ≫= fun r => item r "reads_issued") = Some (VInt 21).
Proof.
  destruct (diskstats_last_line_wins diskstats_two)
    as [ret [Hrun [Hlast _]]].
  - vm_compute. reflexivity.
  - exists ret. split; [exact Hrun|].
    change "sda" with (tok (Str.split "8 0 sda 21 22 23 24 25 26 27 28 29 30 31") 2).
    rewrite (Hlast "8 0 sda 21 22 23 24 25 26 27 28 29 30 31").
    + vm_compute. reflexivity.
    + exists ["8 0 sda 1 2 3 4 5 6 7 8 9 10 11";
              "8 1 sda1 1 2 3 4 5 6 7 8 9 10 11"], [].
      split; [reflexivity|]. split; [reflexivity|].
      intros y Hy. now apply elem_of_nil in Hy.
Defined.

(** ** Edge behaviour of cpustats *)

(** ** IRQ lines outside the expected shape *)

Lemma split_on_first (sep : ascii) (s : string) :
  exists name, py_get (Str.split_on sep s) 0 = Ok name.
Proof.
  unfold Str.split_on.
  destruct (split_on_go_cons sep s "") as [first [rest ->]].
  now exists first.
Qed.

(** X10. An [irq] line whose IRQ number [n] is zero or negative is not
    padded for: the store [irqs[n-1]] counts from the end of the list.  It
    raises [IndexError] when the list has fewer than [1 - n] entries (so
    [irq0] on an empty list), and otherwise overwrites the entry [1 - n]
    places from the end (for [irq0], the last one) and keeps the length. *)
Theorem irq_line_nonpositive (irqs : list value) (l total : string) (n : Z) :
  irq_fields l = Some (n, total) -> n <= 0 ->
  irq_line irqs l
  = if 1 - n <=? Z.of_nat (List.length irqs)
    then Ok (<[Z.to_nat (Z.of_nat (List.length irqs) + n - 1)
               := coerced total]> irqs)
    else Raise IndexError.
Proof.
  unfold irq_fields, irq_line. intros Hf Hn.
  destruct (Str.split l) as [|irqname [|dev [|tot [|rate [|]]]]];
    try discriminate Hf.
  destruct (py_get (Str.split_on ":" irqname) 0) as [name|e];
    unfold mbind, result_bind in Hf |- *; cbv beta iota in Hf |- *;
    [|discriminate Hf].
  destruct (_number (Str.drop 3 name)) as [[m| | | |]|e]; try discriminate Hf.
  injection Hf as -> ->.
  rewrite number_coerced.
  destruct (Z.of_nat (List.length irqs) <? n) eqn:Hc;
    [apply Z.ltb_lt in Hc; lia|].
  unfold py_set.
  destruct (n - 1 <? 0) eqn:Hneg; [|apply Z.ltb_ge in Hneg; lia].
  destruct (1 - n <=? Z.of_nat (List.length irqs)) eqn:Hlen.
  - apply Z.leb_le in Hlen.
    destruct (n - 1 + Z.of_nat (List.length irqs) <? 0) eqn:H1;
      [apply Z.ltb_lt in H1; lia|].
    destruct (Z.of_nat (List.length irqs)
              <=? n - 1 + Z.of_nat (List.length irqs)) eqn:H2;
      [apply Z.leb_le in H2; lia|].
    cbn [orb]. do 2 f_equal. lia.
  - apply Z.leb_gt in Hlen.
    destruct (n - 1 + Z.of_nat (List.length irqs) <? 0) eqn:H1;
      [reflexivity|apply Z.ltb_ge in H1; lia].
Qed.

Lemma irq_line_nonpositive_witness :
  cpustats_intr irq_zero_first = Raise IndexError /\
  irq_line [VInt 8; VInt 0; VInt 0; VInt 120] "irq0: attimer0 5 0"
  = Ok [VInt 8; VInt 0; VInt 0; VInt 5].
Proof.
  split; [vm_compute; reflexivity|].
  rewrite (irq_line_nonpositive _ "irq0: attimer0 5 0" "5" 0).
  - vm_compute. reflexivity.
  - vm_compute. reflexivity.
  - lia.
Defined.

(** X11. An [irq] line that does not have exactly four fields raises
    [ValueError] (the unpacking into four names fails); one that has four
    fields but whose IRQ number is not an integer raises [TypeError]. *)
Theorem irq_line_malformed (irqs : list value) (l : string) :
  (List.length (Str.split l) <> 4%nat -> irq_line irqs l = Raise ValueError) /\
  (List.length (Str.split l) = 4%nat -> irq_fields l = None ->
   irq_line irqs l = Raise TypeError).
Proof.
  unfold irq_fields, irq_line. split.
  - intros Hlen.
    destruct (Str.split l) as [|irqname [|dev [|tot [|rate [|]]]]];
      try reflexivity.
    cbn in Hlen. congruence.
  - intros Hlen Hf.
    destruct (Str.split l) as [|irqname [|dev [|tot [|rate [|]]]]];
      try discriminate Hlen.
    destruct (split_on_first ":" irqname) as [name Hname].
    rewrite Hname in Hf |- *. rewrite bind_Ok in Hf. rewrite bind_Ok.
    rewrite number_coerced in Hf.
    rewrite (number_coerced (Str.drop 3 name)), bind_Ok.
    destruct (coerced (Str.drop 3 name)); try reflexivity. discriminate Hf.
Qed.

Lemma irq_line_malformed_witness :
  irq_line [] "irq16: uhci0 uhci3 7 0" = Raise ValueError /\
  irq_line [] "irqx: uhci0 7 0" = Raise TypeError /\
  irq_line [] "irq1.5: uhci0 7 0" = Raise TypeError.
Proof.
  split; [|split].
  - apply (irq_line_malformed [] "irq16: uhci0 uhci3 7 0"). vm_compute. lia.
  - apply (irq_line_malformed [] "irqx: uhci0 7 0"); vm_compute; reflexivity.
  - apply (irq_line_malformed [] "irq1.5: uhci0 7 0"); vm_compute; reflexivity.
Defined.

(** ** The process counters stay ordered *)

Lemma ps_row_step (c c' : ProcCounts) (l : string) :
  ps_row c l = Ok c' ->
  0 <= processes c' - processes c <= 1 /\
  0 <= procs_blocked c' - procs_blocked c <= processes c' - processes c /\
  0 <= procs_running c' - procs_running c <= processes c' - processes c.
Proof.
  unfold ps_row.
  destruct (py_get (Str.split l) 4) as [vsz|e]; [|discriminate].
  rewrite bind_Ok. destruct (String.eqb vsz "0").
  { intros [= <-]. lia. }
  destruct (py_get (Str.split l) 7) as [stat|e]; [|discriminate].
  rewrite bind_Ok. intros [= <-]. cbn [processes procs_blocked procs_running].
  destruct (Str.contains "D" stat), (Str.contains "R" stat); lia.
Qed.

Lemma ps_rows_steps (rows : list string) :
  forall c c',
    for_in ps_row rows c = Ok c' ->
    0 <= processes c' - processes c <= Z.of_nat (List.length rows) /\
    0 <= procs_blocked c' - procs_blocked c <= processes c' - processes c /\
    0 <= procs_running c' - procs_running c <= processes c' - processes c.
Proof.
  induction rows as [|l rows IH]; intros c c'.
  - cbn. intros [= <-]. lia.
  - cbn [for_in]. destruct (ps_row c l) as [c1|e] eqn:Hrow; [|discriminate].
    rewrite bind_Ok. intros Hrest.
    apply ps_row_step in Hrow. apply IH in Hrest.
    cbn [List.length]. lia.
Qed.

(** X12. Whenever the counting loop of [cpustats] completes, its three
    counters are ordered: [procs_blocked] and [procs_running] lie between 0
    and [processes], and [processes] is at most the number of lines of the
    listing. *)
Theorem cpustats_procs_ordered (text : string) (c : ProcCounts) :
  cpustats_procs text = Ok c ->
  0 <= procs_blocked c <= processes c /\
  0 <= procs_running c <= processes c /\
  processes c <= Z.of_nat (List.length (Str.splitlines text)).
Proof.
  unfold cpustats_procs. intros H. apply ps_rows_steps in H.
  cbn [processes procs_blocked procs_running no_procs] in H. lia.
Qed.

Lemma cpustats_procs_ordered_witness :
  exists c,
    cpustats_procs ps_sample = Ok c /\
    0 <= procs_blocked c <= processes c /\
    0 <= procs_running c <= processes c /\
    processes c <= 4.
Proof.
  exists {| processes := 3; procs_blocked := 1; procs_running := 1 |}.
  assert (E : cpustats_procs ps_sample
              = Ok {| processes := 3; procs_blocked := 1; procs_running := 1 |})
    by (vm_compute; reflexivity).
  split; [exact E|].
  exact (cpustats_procs_ordered ps_sample _ E).
Defined.

(** ** The keys of [cpustats] *)

Lemma cores_dom (cpus : list string) (len : nat) :
  forall (start : nat) (ret ret' : gmap string value),
    ((start + len) * 5 <= List.length cpus)%nat ->
    for_in (cpustats_core cpus) (seq start len) ret = Ok ret' ->
    dom ret' = dom ret ∪ list_to_set (core_key <$> seq start len).
Proof.
  induction len as [|len IH]; intros start ret ret' Hlen.
  - cbn. intros [= <-]. set_solver.
  - cbn [seq for_in]. rewrite core_step by lia. rewrite bind_Ok.
    intros Hrun. apply IH in Hrun; [|lia].
    rewrite Hrun, dom_insert_L, fmap_cons, list_to_set_cons. set_solver.
Qed.

Lemma take4_bytes (s : string) :
  (4 <= String.length s)%nat ->
  exists b0 b1 b2 b3,
    list_ascii_of_string (Str.take 4 s) = [b0; b1; b2; b3].
Proof.
  destruct s as [|b0 [|b1 [|b2 [|b3 r]]]]; cbn; try lia.
  intros _. now exists b0, b1, b2, b3.
Qed.

Lemma unpack_short (be : bool) (s : string) :
  (String.length s < 4)%nat ->
  struct_unpack_i be (Str.take 4 s) = Raise StructError.
Proof.
  destruct s as [|b0 [|b1 [|b2 [|b3 r]]]]; cbn [String.length]; try lia;
    reflexivity.
Qed.

Lemma unpack_long (be : bool) (s : string) :
  (4 <= String.length s)%nat ->
  exists z, struct_unpack_i be (Str.take 4 s) = Ok z.
Proof.
  intros H. destruct (take4_bytes s H) as [b0 [b1 [b2 [b3 E]]]].
  unfold struct_unpack_i. rewrite E. destruct be; eexists; reflexivity.
Qed.

Lemma cputime_star_five (args : list string) :
  List.length args <> 5%nat -> _cputime_star args = Raise TypeError.
Proof.
  destruct args as [|a [|b [|c [|d [|e [|f r]]]]]]; cbn [List.length];
    try reflexivity. congruence.
Qed.

(** X13. Before anything else [cpustats] decodes the first four bytes of
    the boot-time command: with fewer than four bytes of output it raises
    [struct.error].  Next it needs exactly five tokens in [kern.cp_time]:
    with any other number it raises [TypeError]. *)
Theorem cpustats_first_failures (host : World) :
  ((String.length (cmd_run host (boottime_cmd host)) < 4)%nat ->
   cpustats host = Raise StructError) /\
  ((4 <= String.length (cmd_run host (boottime_cmd host)))%nat ->
   List.length (Str.split (sysctl_get host "kern.cp_time")) <> 5%nat ->
   cpustats host = Raise TypeError).
Proof.
  unfold cpustats. fold (boottime_cmd host). split.
  - intros H. now rewrite unpack_short.
  - intros H Hcpu. destruct (unpack_long (big_endian host) _ H) as [z ->].
    rewrite bind_Ok. now rewrite cputime_star_five.
Qed.

Lemma cpustats_first_failures_witness :
  cpustats (host_with_sysctl "kern.cp_time" "1 2 3 4 5") = Raise StructError /\
  cpustats boot_only_host = Raise TypeError.
Proof.
  split.
  - apply (cpustats_first_failures
             (host_with_sysctl "kern.cp_time" "1 2 3 4 5")).
    vm_compute. lia.
  - apply (cpustats_first_failures boot_only_host).
    + vm_compute. lia.
    + vm_compute. lia.
Defined.

(** X14. When [cpustats] returns, the result is a dictionary whose keys
    are exactly btime, cpu, intr, processes, procs_blocked and
    procs_running together with cpu0 .. cpu(n-1), where n is the number of
    tokens of [kern.cp_times] divided by five (rounded down); and its intr
    entry always holds an irqs list. *)
Theorem cpustats_keys (host : World) (v : value) :
  cpustats host = Ok v ->
  exists ret intr irqs,
    v = VDict ret /\
    dom ret
    = cpustats_fixed_keys ∪
      list_to_set
        (core_key <$>
         seq 0 (List.length (Str.split (sysctl_get host "kern.cp_times")) / 5)) /\
    ret !! "intr" = Some (VDict intr) /\
    intr !! "irqs" = Some (VList irqs).
Proof.
  unfold cpustats.
  destruct (struct_unpack_i _ _) as [btime|e]; [|discriminate].
  rewrite bind_Ok.
  destruct (_cputime_star _) as [cpu|e]; [|discriminate].
  rewrite bind_Ok.
  destruct (cpustats_cores _ _) as [ret1|e] eqn:Hcores; [|discriminate].
  rewrite bind_Ok.
  destruct (cpustats_intr _) as [intr|e] eqn:Hintr; [|discriminate].
  rewrite bind_Ok.
  destruct (cpustats_procs _) as [c|e]; [|discriminate].
  rewrite bind_Ok. intros [= <-].
  unfold cpustats_intr in Hintr.
  destruct (for_in intr_line _ _) as [[intr0 irqs]|e]; [|discriminate].
  rewrite bind_Ok in Hintr. injection Hintr as <-.
  eexists _, _, irqs. split; [reflexivity|].
  unfold cpustats_cores in Hcores. apply cores_dom in Hcores.
  2:{ pose proof (Nat.Div0.mul_div_le
                    (List.length (Str.split (sysctl_get host "kern.cp_times"))) 5).
      lia. }
  split; [|split].
  - rewrite !dom_insert_L, Hcores, !dom_insert_L, dom_empty_L.
    unfold cpustats_fixed_keys. set_solver.
  - rewrite !lookup_insert_ne by discriminate. apply lookup_insert_eq.
  - apply lookup_insert_eq.
Qed.

Lemma cpustats_keys_witness :
  exists ret,
    cpustats cpu_host = Ok (VDict ret) /\
    dom ret = cpustats_fixed_keys ∪ {["cpu0"]} ∪ {["cpu1"]} ∪ {["cpu2"]}.
Proof.
  destruct (cpustats cpu_host) as [v|e] eqn:Hrun.
  - destruct (cpustats_keys cpu_host v Hrun)
      as [ret [intr [irqs [-> [Hdom _]]]]].
    exists ret. split; [reflexivity|]. rewrite Hdom.
    f_equal.
  - exfalso. vm_compute in Hrun. discriminate Hrun.
Defined.

(** ** Blocks of netstats and lines of netdev *)

(** ** The columns of a [netstats] block *)

Lemma for_in_inserts_dom {A}
    (body : gmap string value -> A -> result (gmap string value))
    (keep : A -> bool) (key : A -> string) (val : A -> value) (xs : list A) :
  (forall ret x, x ∈ xs ->
     body ret x = Ok (if keep x then <[key x := val x]> ret else ret)) ->
  forall ret ret',
    for_in body xs ret = Ok ret' ->
    dom ret' = dom ret ∪ list_to_set (key <$> List.filter keep xs).
Proof.
  induction xs as [|x xs IH]; intros Hbody ret ret'.
  - cbn. intros [= <-]. set_solver.
  - cbn [for_in List.filter].
    rewrite (Hbody ret x (list_elem_of_here _ _)), bind_Ok.
    intros Hrun. apply IH in Hrun.
    2:{ intros r y Hy. apply Hbody. now right. }
    rewrite Hrun. destruct (keep x).
    + rewrite dom_insert_L, fmap_cons, list_to_set_cons. set_solver.
    + reflexivity.
Qed.

Lemma netstats_field_insert (headers comps : list string)
    (row : gmap string value) (i : nat) :
  (i < List.length headers)%nat -> (i < List.length comps)%nat ->
  netstats_field headers comps row i
  = Ok (if written_column i
        then <[tok headers i := coerced (tok comps i)]> row
        else row).
Proof.
  intros Hh Hc. unfold netstats_field, written_column.
  destruct (i <? 1)%nat; cbn [negb]; [reflexivity|].
  rewrite field_nonneg, bind_Ok by lia.
  rewrite (py_get_in_range headers i Hh), bind_Ok.
  now rewrite Nat2Z.id.
Qed.

Lemma tok_lookup (l : list string) (i : nat) (k : string) :
  (i < List.length l)%nat -> (tok l i = k <-> l !! i = Some k).
Proof.
  intros Hi. unfold tok.
  destruct (lookup_lt_is_Some_2 l i Hi) as [x Hx]. rewrite Hx. cbn.
  split; [now intros ->|now intros [= ->]].
Qed.

(** X15. On a data line, [netstats] builds the block from the header
    columns 1 to n-2 only, n being the number of header tokens: the first
    token names the block (colons removed) and the last column is left
    out.  Each of those columns is bound to the coerced token at the same
    position of the data line, the last one winning when a column name
    repeats. *)
Theorem netstats_block_columns (ret : gmap string value)
    (headers : list string) (line c0 : string) (more : list string) :
  headers <> [] ->
  Str.is_empty line = false ->
  Str.split line = c0 :: more ->
  c0 = tok headers 0 ->
  (List.length headers - 1 <= List.length (c0 :: more))%nat ->
  exists row,
    netstats_line (ret, headers) line
    = Ok (<[Str.remove_char ":" c0 := VDict row]> ret, headers) /\
    (forall k, k ∈ dom row <->
               exists i, (1 <= i < List.length headers - 1)%nat /\
                         headers !! i = Some k) /\
    (forall i, (1 <= i < List.length headers - 1)%nat ->
               (forall j, (i < j < List.length headers - 1)%nat ->
                          tok headers j <> tok headers i) ->
               row !! tok headers i = Some (coerced (tok (c0 :: more) i))).
Proof.
  intros Hh Hne Hs Hc0 Hlen.
  rewrite netstats_line_step by exact Hh. rewrite Hne, Hs, <- Hc0.
  rewrite String.eqb_refl.
  assert (Hbody : forall (r : gmap string value) (i : nat),
             i ∈ seq 0 (List.length headers - 1) ->
             netstats_field headers (c0 :: more) r i
             = Ok (if written_column i
                   then <[tok headers i := coerced (tok (c0 :: more) i)]> r
                   else r)).
  { intros r i Hi. apply elem_of_seq in Hi.
    apply netstats_field_insert; lia. }
  destruct (for_in_inserts (netstats_field headers (c0 :: more))
              written_column (tok headers)
              (fun i => coerced (tok (c0 :: more) i))
              (seq 0 (List.length headers - 1)) Hbody ∅)
    as [row [Hrun [Hlast _]]].
  exists row. rewrite Hrun, bind_Ok. split; [reflexivity|]. split.
  - intros k.
    rewrite (for_in_inserts_dom _ _ _ _ _ Hbody ∅ row Hrun).
    rewrite dom_empty_L, elem_of_union, elem_of_list_to_set, list_elem_of_fmap.
    split.
    + intros [H|[i [-> Hi]]]; [now apply elem_of_empty in H|].
      apply list_elem_of_In, filter_In in Hi as [Hi Hw].
      apply in_seq in Hi. unfold written_column in Hw.
      apply negb_true_iff, Nat.ltb_ge in Hw.
      exists i. split; [lia|]. apply tok_lookup; [lia|reflexivity].
    + intros [i [Hi Hk]]. right. exists i. split.
      * symmetry. apply tok_lookup; [lia|exact Hk].
      * apply list_elem_of_In, filter_In. split; [apply in_seq; lia|].
        unfold written_column. apply negb_true_iff, Nat.ltb_ge. lia.
  - intros i Hi Hlater. apply (Hlast i).
    exists (seq 0 i), (seq (S i) (List.length headers - 1 - S i)).
    split; [|split].
    + replace (List.length headers - 1)%nat
        with (i + S (List.length headers - 1 - S i))%nat at 1 by lia.
      rewrite seq_app. reflexivity.
    + unfold written_column. apply negb_true_iff, Nat.ltb_ge. lia.
    + intros j Hj _. apply elem_of_seq in Hj. apply Hlater. lia.
Qed.

Lemma netstats_block_columns_witness :
  exists row,
    netstats_line (∅, ["Tcp:"; "a"; "b"]) "Tcp: 1 2"
    = Ok (<["Tcp" := VDict row]> ∅, ["Tcp:"; "a"; "b"]) /\
    row !! "a" = Some (VInt 1) /\ "b" ∉ dom row.
Proof.
  destruct (netstats_block_columns ∅ ["Tcp:"; "a"; "b"] "Tcp: 1 2" "Tcp:"
              ["1"; "2"]) as [row [Hrun [Hdom Hval]]];
    try reflexivity; [discriminate|cbn; lia|].
  exists row. split; [exact Hrun|]. split.
  - apply (Hval 1%nat); cbn; [lia|]. intros j Hj. lia.
  - intros Hb. apply Hdom in Hb as [i [Hi Hk]]. cbn in Hi.
    assert (i = 1%nat) by lia. subst i. discriminate Hk.
Defined.

(** ** Block names *)

Lemma for_in_invariant {S A} (body : S -> A -> result S) (I : S -> Prop)
    (xs : list A) :
  (forall s x s', body s x = Ok s' -> I s -> I s') ->
  forall s s', for_in body xs s = Ok s' -> I s -> I s'.
Proof.
  intros Hstep. induction xs as [|x xs IH]; intros s s'.
  - cbn. now intros [= <-].
  - cbn [for_in]. destruct (body s x) as [s1|e] eqn:Hx; [|discriminate].
    rewrite bind_Ok. intros Hrun Hs. apply (IH s1 s' Hrun).
    now apply (Hstep s x).
Qed.

Lemma remove_char_gone (a : ascii) (s : string) :
  Str.contains a (Str.remove_char a s) = false.
Proof.
  induction s as [|c s IH]; [reflexivity|]. cbn [Str.remove_char].
  destruct (Ascii.eqb c a) eqn:Hc; [exact IH|].
  cbn [Str.contains]. now rewrite Hc, IH.
Qed.

(** X16. The block names [netstats] returns never contain a colon. *)
Theorem netstats_names_without_colon (text : string)
    (ret : gmap string value) :
  netstats_text text = Ok (VDict ret) ->
  forall k, k ∈ dom ret -> Str.contains ":" k = false.
Proof.
  unfold netstats_text.
  destruct (for_in netstats_line (Str.split_on NL text) (∅, [""]))
    as [[ret0 headers]|e] eqn:Hrun; [|discriminate].
  rewrite bind_Ok. intros [= <-].
  refine (for_in_invariant netstats_line
            (fun st => forall k, k ∈ dom st.1 -> Str.contains ":" k = false)
            _ _ _ _ Hrun _).
  - clear. intros [ret headers] l [ret' headers'] Hline Hinv.
    unfold netstats_line in Hline. cbn [fst] in *.
    destruct (Str.is_empty l).
    { injection Hline as <- <-. exact Hinv. }
    destruct (py_get (Str.split l) 0) as [c0|e]; [|discriminate].
    rewrite bind_Ok in Hline.
    destruct (py_get headers 0) as [h0|e]; [|discriminate].
    rewrite bind_Ok in Hline.
    destruct (String.eqb c0 h0).
    + destruct (for_in _ _ _) as [row|e]; [|discriminate].
      rewrite bind_Ok in Hline. injection Hline as <- <-.
      intros k. rewrite dom_insert_L, elem_of_union, elem_of_singleton.
      intros [->|Hk]; [apply remove_char_gone|now apply Hinv].
    + injection Hline as <- <-. exact Hinv.
  - cbn [fst]. intros k Hk. rewrite dom_empty_L in Hk.
    now apply elem_of_empty in Hk.
Qed.

Lemma netstats_names_without_colon_witness :
  exists ret,
    netstats_text netstats_sample = Ok (VDict ret) /\
    "Tcp" ∈ dom ret /\ Str.contains ":" "Tcp" = false.
Proof.
  destruct (netstats_text netstats_sample) as [[| | | |ret]|e] eqn:Hrun;
    try (exfalso; vm_compute in Hrun; discriminate Hrun).
  exists ret. split; [reflexivity|].
  assert (Hin : "Tcp" ∈ dom ret).
  { assert (E : netstats_text netstats_sample
                = Ok (VDict (<["Tcp" := VDict (<["a" := VInt 1]> ∅)]>
                            (<["Udp" := VDict ∅]> ∅))))
      by (vm_compute; reflexivity).
    rewrite E in Hrun. injection Hrun as <-.
    rewrite dom_insert_L. set_solver. }
  split; [exact Hin|].
  exact (netstats_names_without_colon netstats_sample ret Hrun "Tcp" Hin).
Defined.

(** ** [netdev] on a whole table *)

Lemma split_on_go_two (sep : ascii) (s : string) :
  Str.contains sep s = true ->
  forall tok, (2 <= List.length (Str.split_on_go sep tok s))%nat.
Proof.
  induction s as [|c s IH]; [discriminate|].
  cbn [Str.contains Str.split_on_go]. intros H tok.
  destruct (Ascii.eqb c sep).
  - destruct (split_on_go_cons sep s "") as [a [r ->]]. cbn. lia.
  - apply IH. exact H.
Qed.

Lemma py_insert_length {A} (l : list A) (i : nat) (x : A) :
  List.length (py_insert l i x) = S (List.length l).
Proof.
  unfold py_insert. rewrite length_app. cbn [List.length].
  rewrite length_take, length_drop. lia.
Qed.

Lemma netdev_comps_outcome (l : string) :
  Str.contains ":" l = true ->
  if Nat.eqb (List.length (Str.split l)) 0
     || Nat.eqb (List.length (after_colon l)) 0
  then netdev_comps l = Raise IndexError
  else exists comps,
      netdev_comps l = Ok comps /\
      List.length comps = S (List.length (Str.split l)).
Proof.
  intros Hcolon. unfold netdev_comps.
  pose proof (split_on_go_two ":" l Hcolon "") as Hparts.
  fold (Str.split_on ":" l) in Hparts.
  rewrite (py_get_nonneg (Str.split_on ":" l) 0), bind_Ok by lia.
  destruct (Nat.eqb (List.length (Str.split l)) 0) eqn:Hc; cbn [orb].
  { apply Nat.eqb_eq in Hc. unfold py_set. rewrite Hc. reflexivity. }
  apply Nat.eqb_neq in Hc.
  rewrite py_set_in_range, bind_Ok by lia.
  rewrite (py_get_nonneg (Str.split_on ":" l) 1), bind_Ok by lia.
  change (Str.split (Str.strip (tok (Str.split_on ":" l) (Z.to_nat 1))))
    with (after_colon l).
  destruct (Nat.eqb (List.length (after_colon l)) 0) eqn:Ha.
  { apply Nat.eqb_eq in Ha. now rewrite py_get_beyond by lia. }
  apply Nat.eqb_neq in Ha.
  rewrite (py_get_nonneg (after_colon l) 0), bind_Ok by lia.
  eexists. split; [reflexivity|].
  now rewrite py_insert_length, length_insert.
Qed.

Lemma netdev_line_outcome (ret : gmap string value) (l : string) :
  completes_or_raises (netdev_line_ok l) (netdev_line ret l).
Proof.
  unfold completes_or_raises, netdev_line_ok, netdev_line.
  destruct (Str.is_empty l); cbn [orb]; [now eexists|].
  destruct (Str.contains ":" l) eqn:Hcolon; cbn [negb orb]; [|now eexists].
  pose proof (netdev_comps_outcome l Hcolon) as Hcomps.
  destruct (Nat.eqb (List.length (after_colon l)) 0) eqn:Ha; cbn [negb andb].
  { rewrite orb_true_r in Hcomps. now rewrite Hcomps. }
  rewrite orb_false_r in Hcomps.
  destruct (Nat.eqb (List.length (Str.split l)) 0) eqn:Hz.
  { rewrite Hcomps. apply Nat.eqb_eq in Hz. rewrite Hz. reflexivity. }
  destruct Hcomps as [comps [-> Hlen]]. rewrite bind_Ok.
  generalize dependent (List.length (Str.split l)). intros n Hz Hlen.
  apply Nat.eqb_neq in Hz.
  rewrite (py_get_nonneg comps 0), bind_Ok by lia.
  destruct (16 <=? n)%nat eqn:Hn.
  - apply Nat.leb_le in Hn.
    rewrite !field_nonneg by lia. rewrite !bind_Ok. now eexists.
  - apply Nat.leb_gt in Hn.
    repeat match goal with
           | |- context [field comps ?i ≫= _] =>
               destruct (Z_le_gt_dec (Z.of_nat (List.length comps)) i);
               [now rewrite (field_beyond comps i) by lia
               |rewrite (field_nonneg comps i), bind_Ok by lia]
           end.
    lia.
Qed.

(** X17. [netdev] skips empty lines and lines without a colon (the two
    header lines of the table).  It completes when every other line has
    something after its first colon and at least sixteen white-space
    separated fields, and raises [IndexError] as soon as one does not. *)
Theorem netdev_outcome (text : string) :
  completes_or_raises (forallb netdev_line_ok (Str.split_on NL text))
                      (netdev_text text).
Proof.
  unfold netdev_text. apply fmap_outcome. unfold completes_or_raises.
  apply for_in_outcome.
  - intros s l Hl. pose proof (netdev_line_outcome s l) as H.
    now rewrite Hl in H.
  - intros s l Hl. pose proof (netdev_line_outcome s l) as H.
    now rewrite Hl in H.
Qed.

Example netdev_outcome_samples :
  (exists ret, netdev_text netdev_table = Ok (VDict ret) /\ dom ret = {["lo"]}) /\
  netdev_text netdev_bare = Raise IndexError.
Proof.
  split.
  - eexists. split; [vm_compute; reflexivity|]. vm_compute. reflexivity.
  - vm_compute. reflexivity.
Qed.

(** ** Entries and failures of diskusage *)

(** ** The entries of [diskusage] *)

Lemma diskusage_query_cases (host : World) (ret : gmap string value)
    (path : string) :
  match statvfs host path with
  | Ok st => diskusage_query host ret path = Ok (<[path := usage_entry st]> ret)
  | Raise e => diskusage_query host ret path = Raise e
  end.
Proof.
  unfold diskusage_query.
  destruct (statvfs host path) as [[[blksz bavail] blocks]|e]; reflexivity.
Qed.

(** X18. Every entry of the mapping [diskusage] returns is computed from
    the [statvfs] answer for its own path: available is [f_bavail] times
    [f_bsize] and total is [f_blocks] times [f_bsize]. *)
Theorem diskusage_entries (braced : list string -> result (string -> bool))
    (host : World) (args : list string) (ret : gmap string value) :
  diskusage braced host args = Ok (VDict ret) ->
  forall p rec,
    ret !! p = Some rec ->
    exists blksz bavail blocks,
      statvfs host p = Ok (blksz, bavail, blocks) /\
      rec = py_dict [("available", VInt (bavail * blksz));
                     ("total", VInt (blocks * blksz))].
Proof.
  unfold diskusage.
  destruct (read_file host "/proc/mounts") as [mounts|].
  2:{ intros [= <-] p rec H. rewrite lookup_empty in H. discriminate H. }
  destruct (diskusage_selected braced args mounts) as [sel|e]; [|discriminate].
  rewrite bind_Ok.
  destruct (for_in (diskusage_query host) (elements sel) ∅) as [ret0|e] eqn:Hrun;
    [|discriminate].
  intros [= <-].
  refine (for_in_invariant (diskusage_query host)
            (fun r : gmap string value =>
               forall p rec, r !! p = Some rec ->
                 exists blksz bavail blocks,
                   statvfs host p = Ok (blksz, bavail, blocks) /\
                   rec = py_dict [("available", VInt (bavail * blksz));
                                  ("total", VInt (blocks * blksz))])
            _ _ _ _ Hrun _).
  - clear. intros r path r' Hq Hinv p rec.
    pose proof (diskusage_query_cases host r path) as Hc.
    destruct (statvfs host path) as [[[blksz bavail] blocks]|e] eqn:Hst;
      rewrite Hc in Hq; [|discriminate].
    injection Hq as <-.
    destruct (decide (path = p)) as [->|Hne].
    + rewrite lookup_insert_eq. intros [= <-]. now exists blksz, bavail, blocks.
    + rewrite lookup_insert_ne by exact Hne. apply Hinv.
  - intros p rec H. rewrite lookup_empty in H. discriminate H.
Qed.

Lemma diskusage_entries_witness :
  exists ret,
    diskusage no_braced (disk_host mounts_sample) ["/"; "/home"]
    = Ok (VDict ret) /\
    ret !! "/home"
    = Some (py_dict [("available", VInt 40960); ("total", VInt 204800)]).
Proof.
  destruct (diskusage no_braced (disk_host mounts_sample) ["/"; "/home"])
    as [[| | | |ret]|e] eqn:Hrun;
    try (exfalso; vm_compute in Hrun; discriminate Hrun).
  exists ret. split; [reflexivity|].
  destruct (ret !! "/home") as [rec|] eqn:Hrec.
  - destruct (diskusage_entries _ _ _ _ Hrun "/home" rec Hrec)
      as [blksz [bavail [blocks [Hst ->]]]].
    injection Hst as <- <- <-. reflexivity.
  - exfalso.
    assert (E : diskusage no_braced (disk_host mounts_sample) ["/"; "/home"]
                = Ok (VDict (<["/" := usage_entry (512, 100, 400)]>
                            (<["/home" := usage_entry (4096, 10, 50)]> ∅))))
      by (vm_compute; reflexivity).
    rewrite E in Hrun. injection Hrun as <-.
    vm_compute in Hrec. discriminate Hrec.
Defined.

(** ** A failing [statvfs] *)

Lemma for_in_first_raise {S A} (body : S -> A -> result S)
    (err : A -> option exn) (xs : list A) :
  (forall s x, match err x with
               | Some e => body s x = Raise e
               | None => is_ok (body s x)
               end) ->
  forall x, x ∈ xs -> err x <> None ->
  forall s, exists y e, y ∈ xs /\ err y = Some e /\ for_in body xs s = Raise e.
Proof.
  intros Hbody. induction xs as [|x0 xs IH]; intros x Hx Herr s.
  - now apply elem_of_nil in Hx.
  - cbn [for_in]. pose proof (Hbody s x0) as H0.
    destruct (err x0) as [e0|] eqn:He0.
    + exists x0, e0. split; [left|]. split; [exact He0|]. now rewrite H0.
    + destruct H0 as [s1 ->]. rewrite bind_Ok.
      apply elem_of_cons in Hx as [->|Hx]; [congruence|].
      destruct (IH x Hx Herr s1) as [y [e [Hy [Hey Hrun]]]].
      exists y, e. split; [now right|]. auto.
Qed.

(** X19. [diskusage] is all or nothing: when [statvfs] raises for one of
    the selected paths, the call raises an exception that [statvfs] raised
    for a selected path, and no partial mapping is returned. *)
Theorem diskusage_statvfs_failure
    (braced : list string -> result (string -> bool)) (host : World)
    (args : list string) (mounts : string) (sel : gset string)
    (p : string) (e : exn) :
  read_file host "/proc/mounts" = Some mounts ->
  diskusage_selected braced args mounts = Ok sel ->
  p ∈ sel -> statvfs host p = Raise e ->
  exists q e', q ∈ sel /\ statvfs host q = Raise e' /\
               diskusage braced host args = Raise e'.
Proof.
  intros Hfile Hsel Hp Hst. unfold diskusage. rewrite Hfile, Hsel, bind_Ok.
  destruct (for_in_first_raise (diskusage_query host)
              (fun q => match statvfs host q with
                        | Ok _ => None
                        | Raise e => Some e
                        end) (elements sel)) with (x := p) (s := (∅ : gmap string value))
    as [q [e' [Hq [He' Hrun]]]].
  - intros s x. pose proof (diskusage_query_cases host s x) as Hc.
    destruct (statvfs host x); [rewrite Hc; now eexists|exact Hc].
  - now apply elem_of_elements.
  - now rewrite Hst.
  - exists q, e'. split; [now apply elem_of_elements in Hq|].
    split.
    + destruct (statvfs host q); [discriminate He'|now injection He' as ->].
    + now rewrite Hrun.
Qed.

Lemma diskusage_statvfs_failure_witness :
  diskusage no_braced (disk_host mounts_sample) ["/"; "/nowhere"]
  = Raise OSError.
Proof.
  destruct (diskusage_statvfs_failure no_braced (disk_host mounts_sample)
              ["/"; "/nowhere"] mounts_sample ({["/"]} ∪ {["/nowhere"]})
              "/nowhere" OSError)
    as [q [e' [Hq [Hst Hrun]]]].
  - reflexivity.
  - vm_compute. reflexivity.
  - set_solver.
  - reflexivity.
  - rewrite Hrun. f_equal.
    apply elem_of_union in Hq as [Hq|Hq]; apply elem_of_singleton in Hq;
      subst q; [discriminate Hst|now injection Hst].
Defined.

(** ** A plain fstype name *)

Lemma plain_pattern_cons (c : ascii) (s : string) :
  plain_pattern (String c s) = true ->
  Ascii.eqb c "*" = false /\ Ascii.eqb c "?" = false /\
  Ascii.eqb c "[" = false /\ plain_pattern s = true.
Proof.
  unfold plain_pattern, has_brace. cbn [Str.contains].
  destruct (Ascii.eqb c "*"), (Ascii.eqb c "?"), (Ascii.eqb c "["),
    (Ascii.eqb c "{"), (Ascii.eqb c "}"); cbn [orb negb];
    rewrite ?orb_true_r; cbn [negb]; try discriminate.
  auto.
Qed.

Lemma plain_pattern_compiles (pat : string) :
  plain_pattern pat = true ->
  Re.compile_atoms (Fnmatch.translate pat) = Ok (literal_atoms pat).
Proof.
  unfold Fnmatch.translate. induction pat as [|c pat IH]; [reflexivity|].
  intros H. apply plain_pattern_cons in H as [H1 [H2 [H3 H]]].
  cbn [Fnmatch.translate_go]. rewrite H1, H2, H3.
  cbn [Re.compile_atoms Re.compile_atom]. rewrite bind_Ok, (IH H).
  reflexivity.
Qed.

Lemma literal_atoms_match (pat s : string) :
  Re.matches (literal_atoms pat) s = true <-> s = pat.
Proof.
  revert s. induction pat as [|c pat IH]; intros s.
  - cbn. destruct s; [tauto|]. split; discriminate.
  - cbn [literal_atoms Re.matches]. destruct s as [|b s].
    + split; discriminate.
    + rewrite andb_true_iff, Ascii.eqb_eq, IH.
      split; [now intros [-> ->]|now intros [= -> ->]].
Qed.

(** X20. An fstype argument without special characters stands for that
    one fstype: it matches a mount-table entry only when the whole fstype
    equals it (never a prefix or a part), so [diskusage] with this single
    argument selects exactly the mount points of that fstype. *)
Theorem diskusage_plain_fstype
    (braced : list string -> result (string -> bool))
    (pat mounts : string) :
  plain_pattern pat = true -> Str.startswith "/" pat = false ->
  (forall s, glob_matches pat s = true <-> s = pat) /\
  exists sel,
    diskusage_selected braced [pat] mounts = Ok sel /\
    forall q, q ∈ sel <-> mount_entry mounts q pat.
Proof.
  intros Hplain Hpath.
  assert (Hmatch : forall s, glob_matches pat s = true <-> s = pat).
  { intros s. unfold glob_matches.
    rewrite (plain_pattern_compiles pat Hplain). apply literal_atoms_match. }
  split; [exact Hmatch|].
  assert (Hglobs : arg_globs [pat] = [pat]).
  { unfold arg_globs. cbn [List.filter]. now rewrite Hpath. }
  assert (Hpaths : arg_paths [pat] = []).
  { unfold arg_paths. cbn [List.filter]. now rewrite Hpath. }
  destruct (diskusage_selected_spec braced [pat] mounts) as [sel [Hrun Hsel]].
  { rewrite Hglobs. constructor; [|constructor].
    unfold glob_ok. rewrite (plain_pattern_compiles pat Hplain).
    unfold plain_pattern in Hplain. apply negb_true_iff in Hplain.
    apply orb_false_iff in Hplain as [_ Hb]. now rewrite Hb. }
  exists sel. split; [exact Hrun|].
  intros q. rewrite Hsel, Hglobs, Hpaths. split.
  - intros [H|[p [fstype [Hp [He Hm]]]]]; [now apply elem_of_nil in H|].
    apply list_elem_of_singleton in Hp. subst p.
    apply Hmatch in Hm. now subst fstype.
  - intros He. right. exists pat, pat.
    split; [apply list_elem_of_here|]. split; [exact He|]. now apply Hmatch.
Qed.

Lemma diskusage_plain_fstype_witness :
  diskusage_selected no_braced ["ext"] mounts_sample = Ok {["/odd"]} /\
  glob_matches "ext" "ext4" = false.
Proof.
  destruct (diskusage_plain_fstype no_braced "ext" mounts_sample)
    as [Hmatch [sel [Hrun _]]]; try reflexivity.
  split.
  - vm_compute. reflexivity.
  - destruct (glob_matches "ext" "ext4") eqn:E; [|reflexivity].
    apply Hmatch in E. discriminate E.
Defined.
